(** * Syncup: entitlement resolution, mirror synchronisation and usage ledger

    Shallow embedding of [utils/woocommerce_sync.py], [utils/database.py],
    [utils/auth.py] and [utils/wordpress_auth.py].

    - Python exceptions are the values of [exn]; a computation that may raise
      returns [Exc A].
    - HTTP calls to the WordPress/WooCommerce gateway are answered by the
      functions of a [gateway] record (one answer per request).
    - The Supabase client is a store of two tables ([wp_users], [api_usage]);
      every [.execute()] is one numbered store call, and the calls whose
      number is listed in [faults] raise (an [APIError] of the client).
    - [st.session_state] is part of the same world record. *)

From Stdlib Require Import ZArith String List Bool QArith Ascii Lia.
From Stdlib Require Import Sorted Permutation.
Import ListNotations.
Open Scope string_scope.
Open Scope Z_scope.

(** ** Python exceptions and results *)

Inductive exn :=
| RequestException   (** [requests.exceptions.RequestException]: timeouts, connection errors *)
| JSONDecodeError    (** [resp.json()] on a body that is not JSON; a [RequestException] too *)
| KeyError
| IndexError
| ValueError
| APIError.           (** raised by the Supabase client *)

(** [except requests.exceptions.RequestException] catches these. *)
Definition is_request_exception (e : exn) : bool :=
  match e with
  | RequestException | JSONDecodeError => true
  | _ => false
  end.

Inductive Exc (A : Type) :=
| Ok (a : A)
| Raise (e : exn).
Arguments Ok {A} a.
Arguments Raise {A} e.

Definition exc_bind {A B} (m : Exc A) (f : A -> Exc B) : Exc B :=
  match m with Ok a => f a | Raise e => Raise e end.

Notation "x <-? m ; k" := (exc_bind m (fun x => k))
  (at level 61, m at next level, right associativity).

(** [d[key]] on a dict: a missing key raises [KeyError]. *)
Definition key {A} (o : option A) : Exc A :=
  match o with Some a => Ok a | None => Raise KeyError end.

(** [xs[0]]. *)
Definition index0 {A} (xs : list A) : Exc A :=
  match xs with a :: _ => Ok a | [] => Raise IndexError end.

(** Python truthiness of an optional integer ([None] and [0] are false). *)
Definition truthy_id (o : option Z) : bool :=
  match o with Some z => negb (z =? 0) | None => false end.

(** [a or b] on optional integers. *)
Definition py_or (a b : option Z) : option Z := if truthy_id a then a else b.

Definition opt_default {A} (d : A) (o : option A) : A :=
  match o with Some a => a | None => d end.

(** ** The gateway (WordPress / WooCommerce REST API) *)

(** One HTTP exchange: it raises (timeout, refused connection) or answers
    with a status and a body; a body [None] is one on which [.json()]
    raises. *)
Inductive http (A : Type) :=
| Timeout
| ConnectionError
| Response (status : Z) (body : option A).
Arguments Timeout {A}.
Arguments ConnectionError {A}.
Arguments Response {A} status body.

Definition send {A} (r : http A) : Exc (Z * option A) :=
  match r with
  | Timeout | ConnectionError => Raise RequestException
  | Response s b => Ok (s, b)
  end.

Definition json {A} (b : option A) : Exc A :=
  match b with Some a => Ok a | None => Raise JSONDecodeError end.

(** A WooCommerce order line item; [None] fields are absent keys. *)
Record line_item := mk_line_item {
  li_product_id : option Z;
  li_name : option string;
  li_quantity : option Z;
  li_total : option string
}.

Record order := mk_order {
  o_id : option Z;
  o_date_created : option string;
  o_line_items : option (list line_item)
}.

Record customer := mk_customer {
  c_id : option Z;
  c_username : option string;
  c_first_name : option string;
  c_last_name : option string
}.

(** Answer of [/jwt-auth/v1/token]. *)
Record token_data := mk_token_data {
  td_token : option string;
  td_user_nicename : option string
}.

(** Answer of [/wp/v2/users/me]. *)
Record wp_user := mk_wp_user {
  wu_id : option Z;
  wu_email : option string;
  wu_username : option string;
  wu_name : option string;
  wu_roles : option (list string)
}.

Record gateway := mk_gateway {
  gw_customers : string -> http (list customer);         (** customers?email= *)
  gw_orders : Z -> http (list order);                     (** orders?customer=&status=completed *)
  gw_token : string -> string -> http token_data;         (** POST jwt-auth/v1/token *)
  gw_me : string -> http wp_user;                         (** GET wp/v2/users/me with a bearer token *)
  gw_validate : string -> http unit                       (** POST jwt-auth/v1/token/validate *)
}.

(** The process environment: the module-level [wp_config] and [supabase]
    objects (present or [None]), the gateway, and the per-process string
    hash [py_hash]. *)
Record env := mk_env {
  wp_config : bool;
  supabase : bool;
  gw : gateway;
  py_hash : string -> Z
}.

(** ** Entitlement resolver: [get_user_purchased_products] *)

(** One entry of [purchased_products]. *)
Record purchase := mk_purchase {
  p_product_id : Z;
  p_name : option string;
  p_quantity : Z;
  p_total : string;
  p_order_id : option Z;
  p_order_date : option string
}.

Definition purchase_of (o : order) (item : line_item) (pid : Z) : purchase :=
  {| p_product_id := pid;
     p_name := li_name item;
     p_quantity := opt_default 1 (li_quantity item);
     p_total := opt_default "0" (li_total item);
     p_order_id := o_id o;
     p_order_date := o_date_created o |}.

(** The inner loop [for item in order.get('line_items', [])], threading
    [(product_ids, purchased_products)]. *)
Definition scan_item (o : order) (acc : list Z * list purchase) (item : line_item)
  : list Z * list purchase :=
  let '(product_ids, purchased_products) := acc in
  match li_product_id item with
  | Some pid =>
      if negb (pid =? 0) && negb (existsb (Z.eqb pid) product_ids)
      then (pid :: product_ids, (purchased_products ++ [purchase_of o item pid])%list)
      else acc
  | None => acc
  end.

Definition scan_order (acc : list Z * list purchase) (o : order) : list Z * list purchase :=
  fold_left (scan_item o) (opt_default [] (o_line_items o)) acc.

(** [for order in orders: ...] from empty accumulators. *)
Definition extract_purchases (orders : list order) : list purchase :=
  snd (fold_left scan_order orders ([], [])).

(** The body of the [try] block. *)
Definition purchased_products_try (G : gateway) (email : string) : Exc (list purchase) :=
  r <-? send (gw_customers G email);
  let '(status, body) := r in
  if negb (status =? 200) then Ok [] else
  customers <-? json body;
  match customers with
  | [] => Ok []
  | _ =>
    customer <-? index0 customers;
    customer_id <-? key (c_id customer);
    r2 <-? send (gw_orders G customer_id);
    let '(status2, body2) := r2 in
    if negb (status2 =? 200) then Ok [] else
    orders <-? json body2;
    Ok (extract_purchases orders)
  end.

Definition get_user_purchased_products (E : env) (email : string) : list purchase :=
  if negb (wp_config E) then [] else
  match purchased_products_try (gw E) email with
  | Ok l => l
  | Raise _ => []    (** [except Exception: st.error(...); return []] *)
  end.

(** ** Entitlement resolver: [get_user_product_access_level] *)

(** [float(s)] on the decimal strings WooCommerce sends as totals
    (an optional sign, digits, an optional fraction); any other string
    raises [ValueError].  The value is exact (a rational). *)
Definition digit (c : ascii) : option Z :=
  let n := nat_of_ascii c in
  if (48 <=? n)%nat && (n <=? 57)%nat then Some (Z.of_nat n - 48) else None.

Fixpoint take_digits (s : string) : list Z * string :=
  match s with
  | String c rest =>
      match digit c with
      | Some d => let '(ds, r) := take_digits rest in (d :: ds, r)
      | None => ([], s)
      end
  | EmptyString => ([], EmptyString)
  end.

Definition digits_value (ds : list Z) : Z := fold_left (fun a d => a * 10 + d) ds 0.

Definition float_of_string (s : string) : Exc Q :=
  let '(neg, s1) :=
    match s with
    | String c r =>
        if Ascii.eqb c "-"%char then (true, r)
        else if Ascii.eqb c "+"%char then (false, r) else (false, s)
    | EmptyString => (false, s)
    end in
  let '(ip, s2) := take_digits s1 in
  let '(fp, s3) :=
    match s2 with
    | String c r => if Ascii.eqb c "."%char then take_digits r else ([], s2)
    | EmptyString => ([], s2)
    end in
  match s3 with
  | EmptyString =>
      if (length ip + length fp =? 0)%nat then Raise ValueError else
      let q := Qmake (digits_value (ip ++ fp)) (Z.to_pos (10 ^ Z.of_nat (length fp))) in
      Ok (if neg then Qopp q else q)
  | _ => Raise ValueError
  end.

Inductive level := none | basic | premium | enterprise.

(** [access_levels[level]["permissions"]]; [none] is not a key. *)
Definition access_levels (l : level) : option (list string) :=
  match l with
  | basic => Some ["property_search"]
  | premium => Some ["property_search"; "analytics"; "export"]
  | enterprise => Some ["property_search"; "analytics"; "export"; "api_access"]
  | none => None
  end.

(** The returned dict; the early return for no purchases has no
    [product_count] and no [total_spent] key. *)
Record access_info := mk_access_info {
  access_level : level;
  products : list purchase;
  product_count : option nat;
  total_spent : option Q;
  permissions : list string
}.

(** [sum(float(p.get('total', 0)) for p in purchased_products)]. *)
Definition sum_totals (ps : list purchase) : Exc Q :=
  fold_left (fun acc p => s <-? acc; x <-? float_of_string (p_total p); Ok (s + x)%Q)
    ps (Ok 0%Q).

Definition access_info_of (purchased_products : list purchase) : Exc access_info :=
  match purchased_products with
  | [] => Ok {| access_level := none; products := []; product_count := None;
                total_spent := None; permissions := [] |}
  | _ =>
    let product_count := length purchased_products in
    total_spent <-? sum_totals purchased_products;
    let level :=
      if (5 <=? product_count)%nat then enterprise
      else if (3 <=? product_count)%nat then premium
      else if (1 <=? product_count)%nat then basic
      else none in
    Ok {| access_level := level;
          products := purchased_products;
          product_count := Some product_count;
          total_spent := Some total_spent;
          permissions := opt_default [] (access_levels level) |}
  end.


(** ** Reference readings of the resolver *)

(** The tier table as the spec words it: 0 -> none, 1-2 -> basic,
    3-4 -> premium, 5 and more -> enterprise. *)
Definition tier_by_count_spec (n : nat) : level :=
  match n with
  | O => none
  | 1%nat | 2%nat => basic
  | 3%nat | 4%nat => premium
  | _ => enterprise
  end.

Definition level_rank (l : level) : nat :=
  match l with none => 0 | basic => 1 | premium => 2 | enterprise => 3 end.

(** All line items of all orders, in order. *)
Definition flatten_items (orders : list order) : list (order * line_item) :=
  flat_map (fun o => map (pair o) (opt_default [] (o_line_items o))) orders.

Definition opt_Z_eqb (a b : option Z) : bool :=
  match a, b with
  | Some x, Some y => Z.eqb x y
  | None, None => true
  | _, _ => false
  end.



(** The same reading once line items with a missing or zero product id
    are left out, as purchases. *)
Fixpoint dedup_truthy (seen : list Z) (l : list (order * line_item)) : list purchase :=
  match l with
  | [] => []
  | (o, it) :: rest =>
      match li_product_id it with
      | Some pid =>
          if negb (pid =? 0) && negb (existsb (Z.eqb pid) seen)
          then purchase_of o it pid :: dedup_truthy (pid :: seen) rest
          else dedup_truthy seen rest
      | None => dedup_truthy seen rest
      end
  end.

Definition purchases_kept (orders : list order) : list purchase :=
  dedup_truthy [] (flatten_items orders).

(** ** The world: Supabase tables, session state and store faults *)

(** A row of [wp_users] as [sync_woo_product_user] writes it (the JSON
    columns [capabilities] and [customer_data] are not modelled). *)
Record user_row := mk_user_row {
  u_wp_user_id : option Z;
  u_wc_customer_id : option Z;
  u_email : string;
  u_username : option string;
  u_display_name : option string;
  u_purchased_products : list purchase;
  u_product_access : bool;
  u_last_login : string;
  u_roles : list string;
  u_wp_token : option string;
  u_created_at : option string
}.

(** A row of [api_usage]. *)
Record usage_row := mk_usage_row {
  a_wp_user_id : Z;
  a_email : string;
  a_queries : Z;
  a_last_query : option string;
  a_created_at : option string
}.

(** The object [login] stores as [st.session_state.user]. *)
Record session_user := mk_session_user {
  su_id : Z;
  su_email : string;
  su_username : option string;
  su_display_name : option string;
  su_purchased_products : list purchase;
  su_product_access : bool
}.

(** [st.session_state]: [user], [access_token], the [wp_token] key set by
    [wp_jwt_login], and [current_time] (read with default ['now()']). *)
Record session := mk_session {
  user : option session_user;
  access_token : option string;
  wp_token : option string;
  current_time : option string
}.

Record world := mk_world {
  wp_users : list user_row;
  api_usage : list usage_row;
  sess : session;
  ops : nat;           (** number of store calls made so far *)
  faults : list nat    (** the store calls that raise *)
}.

Definition set_wp_users (t : list user_row) (w : world) : world :=
  mk_world t (api_usage w) (sess w) (ops w) (faults w).
Definition set_api_usage (t : list usage_row) (w : world) : world :=
  mk_world (wp_users w) t (sess w) (ops w) (faults w).
Definition set_sess (s : session) (w : world) : world :=
  mk_world (wp_users w) (api_usage w) s (ops w) (faults w).
Definition set_ops (n : nat) (w : world) : world :=
  mk_world (wp_users w) (api_usage w) (sess w) n (faults w).

(** ** The state-and-exception monad *)

Definition M (A : Type) : Type := world -> Exc A * world.

Definition ret {A} (a : A) : M A := fun w => (Ok a, w).

Definition bind {A B} (m : M A) (f : A -> M B) : M B :=
  fun w => match m w with
           | (Ok a, w') => f a w'
           | (Raise e, w') => (Raise e, w')
           end.

Definition raise {A} (e : exn) : M A := fun w => (Raise e, w).

Notation "x <- m ;; k" := (bind m (fun x => k))
  (at level 61, m at next level, right associativity).

(** [try: m except <exceptions selected by p>: h]. *)
Definition try_only {A} (p : exn -> bool) (m : M A) (h : exn -> M A) : M A :=
  fun w => match m w with
           | (Raise e, w') => if p e then h e w' else (Raise e, w')
           | r => r
           end.

(** [try: m except Exception: h]. *)
Definition try_except {A} (m : M A) (h : exn -> M A) : M A :=
  try_only (fun _ => true) m h.

Definition lift {A} (r : Exc A) : M A := fun w => (r, w).

Definition get_session : M session := fun w => (Ok (sess w), w).
Definition put_session (s : session) : M unit := fun w => (Ok tt, set_sess s w).

(** [st.session_state.get('current_time', 'now()')]. *)
Definition get_current_time : M string :=
  fun w => (Ok (opt_default "now()" (current_time (sess w))), w).

(** One [.execute()] against Supabase. *)
Definition store_call {A} (f : world -> A * world) : M A :=
  fun w =>
    let w1 := set_ops (S (ops w)) w in
    if existsb (Nat.eqb (ops w)) (faults w) then (Raise APIError, w1)
    else let '(a, w2) := f w1 in (Ok a, w2).

(** [api_usage]: [select("*").eq("wp_user_id", k)], [insert], [update(...).eq("wp_user_id", k)]. *)
Definition select_usage (k : Z) : M (list usage_row) :=
  store_call (fun w => (filter (fun r => a_wp_user_id r =? k) (api_usage w), w)).

Definition insert_usage (r : usage_row) : M unit :=
  store_call (fun w => (tt, set_api_usage (api_usage w ++ [r])%list w)).

Definition update_usage (k : Z) (f : usage_row -> usage_row) : M unit :=
  store_call (fun w =>
    (tt, set_api_usage (map (fun r => if a_wp_user_id r =? k then f r else r) (api_usage w)) w)).

(** [wp_users]: the three filters [.eq(column, value)] used by the code. *)
Inductive user_filter :=
| ByWpUserId (z : Z)
| ByWcCustomerId (z : Z)
| ByEmail (e : string).

Definition matches (flt : user_filter) (r : user_row) : bool :=
  match flt with
  | ByWpUserId z => opt_Z_eqb (u_wp_user_id r) (Some z)
  | ByWcCustomerId z => opt_Z_eqb (u_wc_customer_id r) (Some z)
  | ByEmail e => String.eqb (u_email r) e
  end.

(** [update(data)] sets every column of [data]; [created_at] is not one. *)
Definition apply_user_update (data r : user_row) : user_row :=
  {| u_wp_user_id := u_wp_user_id data; u_wc_customer_id := u_wc_customer_id data;
     u_email := u_email data; u_username := u_username data;
     u_display_name := u_display_name data;
     u_purchased_products := u_purchased_products data;
     u_product_access := u_product_access data; u_last_login := u_last_login data;
     u_roles := u_roles data; u_wp_token := u_wp_token data;
     u_created_at := u_created_at r |}.

Definition select_users (flt : user_filter) : M (list user_row) :=
  store_call (fun w => (filter (matches flt) (wp_users w), w)).

Definition update_users (flt : user_filter) (data : user_row) : M unit :=
  store_call (fun w =>
    (tt, set_wp_users (map (fun r => if matches flt r then apply_user_update data r else r)
                           (wp_users w)) w)).

Definition insert_users (r : user_row) : M unit :=
  store_call (fun w => (tt, set_wp_users (wp_users w ++ [r])%list w)).

(** ** Usage ledger ([utils/database.py]) *)

Section Ledger.
Variable E : env.

Definition initialize_user_usage (wp_user_id : Z) (email : string) : M bool :=
  if negb (supabase E) then ret false else
  try_except
    (existing <- select_usage wp_user_id ;;
     match existing with
     | [] =>
         t <- get_current_time ;;
         _ <- insert_usage {| a_wp_user_id := wp_user_id; a_email := email; a_queries := 0;
                              a_last_query := None; a_created_at := Some t |} ;;
         ret true
     | _ => ret true
     end)
    (fun _ => ret false).

Definition get_user_usage (wp_user_id : Z) (email : string) : M Z :=
  if negb (supabase E) then ret 0 else
  try_except
    (response <- select_usage wp_user_id ;;
     match response with
     | r :: _ => ret (a_queries r)
     | [] => _ <- initialize_user_usage wp_user_id email ;; ret 0
     end)
    (fun _ => ret 0).

(** [result.data is not None] holds for every answer of the client. *)
Definition increment_usage (wp_user_id : Z) (email : string) : M bool :=
  if negb (supabase E) then ret false else
  try_except
    (current <- get_user_usage wp_user_id email ;;
     t <- get_current_time ;;
     _ <- update_usage wp_user_id
            (fun r => {| a_wp_user_id := a_wp_user_id r; a_email := a_email r;
                         a_queries := current + 1; a_last_query := Some t;
                         a_created_at := a_created_at r |}) ;;
     ret true)
    (fun _ => ret false).

Definition check_usage_limit (wp_user_id : Z) (email : string) (limit : Z) : M bool :=
  current_usage <- get_user_usage wp_user_id email ;;
  ret (current_usage <? limit).

End Ledger.

(** ** Mirror synchroniser and login ([utils/woocommerce_sync.py]) *)

(** The [user_data] dict built by the two login paths; [None] in
    [ud_wp_user_id], [ud_wc_customer_id] or [ud_wp_token] is an absent key
    (the customer-only path sets no [wp_user_id], [wp_token] or [roles]). *)
Record user_data := mk_user_data {
  ud_wp_user_id : option Z;
  ud_wc_customer_id : option Z;
  ud_email : string;
  ud_username : option string;
  ud_display_name : option string;
  ud_wp_token : option string;
  ud_purchased_products : list purchase;
  ud_product_access : bool;
  ud_roles : list string
}.

(** [supabase_data], with [last_login] the session's current time. *)
Definition supabase_data (ud : user_data) (last_login : string) : user_row :=
  {| u_wp_user_id := ud_wp_user_id ud; u_wc_customer_id := ud_wc_customer_id ud;
     u_email := ud_email ud; u_username := ud_username ud;
     u_display_name := ud_display_name ud;
     u_purchased_products := ud_purchased_products ud;
     u_product_access := ud_product_access ud; u_last_login := last_login;
     u_roles := ud_roles ud; u_wp_token := ud_wp_token ud; u_created_at := None |}.

Definition with_created_at (r : user_row) (t : string) : user_row :=
  {| u_wp_user_id := u_wp_user_id r; u_wc_customer_id := u_wc_customer_id r;
     u_email := u_email r; u_username := u_username r;
     u_display_name := u_display_name r;
     u_purchased_products := u_purchased_products r;
     u_product_access := u_product_access r; u_last_login := u_last_login r;
     u_roles := u_roles r; u_wp_token := u_wp_token r; u_created_at := Some t |}.

(** The [if user_data.get("wp_user_id") / elif ...("wc_customer_id") / else]
    choice; the select and the update branch test the same conditions on
    the same dict, so they use the same filter. *)
Definition lookup_filter (ud : user_data) : user_filter :=
  if truthy_id (ud_wp_user_id ud) then ByWpUserId (opt_default 0 (ud_wp_user_id ud))
  else if truthy_id (ud_wc_customer_id ud) then ByWcCustomerId (opt_default 0 (ud_wc_customer_id ud))
  else ByEmail (ud_email ud).

Section Sync.
Variable E : env.

(** [user_data.get("wp_user_id") or user_data.get("wc_customer_id") or hash(user_data["email"])]. *)
Definition usage_key (ud : user_data) : Z :=
  let o := py_or (ud_wp_user_id ud) (ud_wc_customer_id ud) in
  if truthy_id o then opt_default 0 o else py_hash E (ud_email ud).

Definition sync_woo_product_user (ud : user_data) : M bool :=
  if negb (supabase E) then ret false else
  try_except
    (t <- get_current_time ;;
     let data := supabase_data ud t in
     existing <- select_users (lookup_filter ud) ;;
     _ <- match existing with
          | [] => t' <- get_current_time ;; insert_users (with_created_at data t')
          | _ => update_users (lookup_filter ud) data
          end ;;
     _ <- initialize_user_usage E (usage_key ud) (ud_email ud) ;;
     ret true)
    (fun _ => ret false).

(** [email.split('@')[0]]. *)
Fixpoint email_local_part (s : string) : string :=
  match s with
  | String c r => if Ascii.eqb c "@"%char then EmptyString else String c (email_local_part r)
  | EmptyString => EmptyString
  end.

Definition is_space (c : ascii) : bool :=
  let n := nat_of_ascii c in
  (n =? 32)%nat || ((9 <=? n)%nat && (n <=? 13)%nat).

Fixpoint lstrip (s : string) : string :=
  match s with
  | String c r => if is_space c then lstrip r else s
  | EmptyString => EmptyString
  end.

Fixpoint string_rev (s : string) (acc : string) : string :=
  match s with
  | String c r => string_rev r (String c acc)
  | EmptyString => acc
  end.

(** [str.strip()] on ASCII whitespace. *)
Definition py_strip (s : string) : string :=
  string_rev (lstrip (string_rev (lstrip s) EmptyString)) EmptyString.

(** [f"{first_name} {last_name}".strip() or email]. *)
Definition customer_display_name (c : customer) (email : string) : string :=
  match py_strip (opt_default "" (c_first_name c) ++ " " ++ opt_default "" (c_last_name c)) with
  | EmptyString => email
  | d => d
  end.

Definition woo_customer_login (email password : string) : M (option user_data) :=
  if negb (wp_config E) then ret None else
  try_except
    (match get_user_purchased_products E email with
     | [] => ret None
     | purchased_products =>
       r <- lift (send (gw_customers (gw E) email)) ;;
       found <- (if fst r =? 200
                 then customers <- lift (json (snd r)) ;;
                      ret (match customers with [] => None | c :: _ => Some c end)
                 else ret None) ;;
       match found with
       | Some customer =>
           cid <- lift (key (c_id customer)) ;;
           let ud := {| ud_wp_user_id := None; ud_wc_customer_id := Some cid;
                        ud_email := email;
                        ud_username := Some (opt_default (email_local_part email) (c_username customer));
                        ud_display_name := Some (customer_display_name customer email);
                        ud_wp_token := None;
                        ud_purchased_products := purchased_products;
                        ud_product_access := true; ud_roles := [] |} in
           sync_result <- sync_woo_product_user ud ;;
           if sync_result then ret (Some ud) else ret None
       | None => ret None
       end
     end)
    (fun _ => ret None).

Definition woo_product_login (email password : string) : M (option user_data) :=
  if negb (wp_config E) then ret None else
  try_only is_request_exception
    (r <- lift (send (gw_token (gw E) email password)) ;;
     if fst r =? 200 then
       wp_token_data <- lift (json (snd r)) ;;
       token <- lift (key (td_token wp_token_data)) ;;
       r2 <- lift (send (gw_me (gw E) token)) ;;
       if fst r2 =? 200 then
         wu <- lift (json (snd r2)) ;;
         let user_email := opt_default email (wu_email wu) in
         match get_user_purchased_products E user_email with
         | [] => ret None
         | purchased_products =>
           let ud := {| ud_wp_user_id := wu_id wu; ud_wc_customer_id := None;
                        ud_email := user_email;
                        ud_username := match wu_username wu with
                                       | Some u => Some u
                                       | None => td_user_nicename wp_token_data
                                       end;
                        ud_display_name := wu_name wu;
                        ud_wp_token := Some token;
                        ud_purchased_products := purchased_products;
                        ud_product_access := true;
                        ud_roles := opt_default [] (wu_roles wu) |} in
           sync_result <- sync_woo_product_user ud ;;
           if sync_result then ret (Some ud) else ret None
         end
       else ret None
     else woo_customer_login email password)
    (fun _ => ret None).

(** [login] of [utils/auth.py]; it imports [woo_product_login] from a
    module [utils.woo_product_auth], of which the definition above in
    [utils/woocommerce_sync.py] is the one present. *)
Definition login (email password : string) : M (option user_data) :=
  try_except
    (ud <- woo_product_login email password ;;
     match ud with
     | Some u =>
         s <- get_session ;;
         let id := let o := py_or (ud_wp_user_id u) (ud_wc_customer_id u) in
                   if truthy_id o then opt_default 0 o else py_hash E email in
         _ <- put_session
                {| user := Some {| su_id := id; su_email := ud_email u;
                                   su_username := ud_username u;
                                   su_display_name := ud_display_name u;
                                   su_purchased_products := ud_purchased_products u;
                                   su_product_access := ud_product_access u |};
                   access_token := Some (opt_default "woo_access" (ud_wp_token u));
                   wp_token := wp_token s; current_time := current_time s |} ;;
         ret (Some u)
     | None => ret None
     end)
    (fun _ => ret None).

(** ** Token validation ([utils/wordpress_auth.py]) *)

Definition validate_wp_token (token : option string) : bool :=
  if negb (wp_config E) then false else
  match token with
  | None | Some EmptyString => false
  | Some t =>
      match gw_validate (gw E) t with
      | Response status _ => status =? 200
      | _ => false            (** bare [except: return False] *)
      end
  end.

(** Modelled from the spec: [check_authentication], imported by [app.py]
    and [utils/auth.py] from [utils.auth] but not defined in the sources.
    The session is valid only when a user is stored and the validation call
    on its token succeeds; otherwise the whole session (user and tokens) is
    cleared in one write and [False] is returned. *)
Definition check_authentication : M bool :=
  s <- get_session ;;
  match user s with
  | Some _ =>
      if validate_wp_token (access_token s) then ret true
      else _ <- put_session {| user := None; access_token := None; wp_token := None;
                               current_time := current_time s |} ;;
           ret false
  | None =>
      _ <- put_session {| user := None; access_token := None; wp_token := None;
                          current_time := current_time s |} ;;
      ret false
  end.

(** [initialize_user_usage_tracking] of [utils/wordpress_auth.py], called by
    [sync_wp_user_to_supabase] for a user new to [wp_users]: an insert with
    no lookup; [now] is [datetime.now(timezone.utc).isoformat()]. *)
Definition initialize_user_usage_tracking (wp_user_id : Z) (email now : string) : M unit :=
  if negb (supabase E) then ret tt else
  try_except
    (insert_usage {| a_wp_user_id := wp_user_id; a_email := email; a_queries := 0;
                     a_last_query := None; a_created_at := Some now |})
    (fun _ => ret tt).

End Sync.

Definition authenticated (s : session) : bool :=
  match user s with Some _ => true | None => false end.

(** ** Product access and profile reads *)

Section Access.
Variable E : env.

(** [check_product_access] of [utils/woocommerce_sync.py]; [None] is the
    default [required_product_ids=None]. *)
Definition check_product_access (email : string) (required_product_ids : option (list Z)) : bool :=
  match get_user_purchased_products E email with
  | [] => false
  | purchased_products =>
      match required_product_ids with
      | None | Some [] => true    (** [if not required_product_ids: return True] *)
      | Some required =>
          let purchased_ids := map p_product_id purchased_products in
          existsb (fun pid => existsb (Z.eqb pid) purchased_ids) required
      end
  end.

(** [get_user_profile] of [utils/database.py]:
    [response.data[0] if response.data else None]. *)
Definition get_user_profile (wp_user_id : Z) : M (option user_row) :=
  if negb (supabase E) then ret None else
  try_except
    (response <- select_users (ByWpUserId wp_user_id) ;;
     ret (match response with r :: _ => Some r | [] => None end))
    (fun _ => ret None).

End Access.

(** ** Orders summary ([get_user_orders_summary] of [utils/database.py]) *)

(** A [wc_orders] row as [select("*")] reads it back: every column is in
    the row, so the defaults of [order.get('total', 0)] and
    [x.get('date_created', '')] never apply; [None] is a null column, which
    Python reads as [None].  [total] is a nullable DECIMAL column, read as a
    number; [date_created] a nullable TIMESTAMP, read as an ISO string. *)
Record wc_order_row := mk_wc_order_row {
  wo_wc_order_id : Z;
  wo_total : option Q;
  wo_status : option string;
  wo_date_created : option string
}.

Record orders_summary := mk_orders_summary {
  total_orders : nat;
  total_spent_orders : Q;
  completed_orders : nat;
  recent_orders : list wc_order_row
}.

(** [sum(float(order.get('total', 0)) for order in orders)]: [float(None)]
    raises [TypeError], here [None]. *)
Definition sum_order_totals (orders : list wc_order_row) : option Q :=
  fold_left (fun acc o => match acc, wo_total o with
                          | Some s, Some t => Some (s + t)%Q
                          | _, _ => None
                          end) orders (Some 0%Q).

(** [x.get('date_created', '')]: the column's value. *)
Definition date_key (o : wc_order_row) : option string := wo_date_created o.

(** [a < b] on two sort keys: strings compare as Python compares them;
    [<] with a [None] on either side raises [TypeError], here [None]. *)
Definition key_lt (a b : option string) : option bool :=
  match a, b with
  | Some x, Some y => Some (String.ltb x y)
  | _, _ => None
  end.

(** Inserting into a list sorted by [date_key], descending: [x] goes after
    every row whose key is not smaller, which keeps equal keys in their
    original order; a comparison that raises makes the insertion raise. *)
Fixpoint insert_desc (x : wc_order_row) (l : list wc_order_row) : option (list wc_order_row) :=
  match l with
  | [] => Some [x]
  | y :: l' =>
      match key_lt (date_key y) (date_key x) with
      | None => None
      | Some true => Some (x :: l)
      | Some false => option_map (cons y) (insert_desc x l')
      end
  end.

(** [sorted(orders, key=lambda x: x.get('date_created', ''), reverse=True)]:
    Python's sort is stable, also with [reverse=True].  Any comparison sort
    of two or more rows compares every row at least once, so, like this
    insertion sort, Python's sort raises [TypeError] exactly when there are
    two or more rows and one of them has a null [date_created]; a single
    row is not compared. *)
Definition sorted_desc (orders : list wc_order_row) : option (list wc_order_row) :=
  fold_left (fun acc x => match acc with Some l => insert_desc x l | None => None end)
            orders (Some []).

Definition is_completed (o : wc_order_row) : bool :=
  match wo_status o with Some s => String.eqb s "completed" | None => false end.

(** [wc_orders wp_user_id] is the answer of
    [supabase.table("wc_orders").select("*").eq("wp_user_id", wp_user_id).execute()]:
    the rows, or the exception it raises. *)
Definition get_user_orders_summary (E : env) (wc_orders : Z -> Exc (list wc_order_row))
    (wp_user_id : Z) : option orders_summary :=
  if negb (supabase E) then None else
  match wc_orders wp_user_id with
  | Ok ((_ :: _) as orders) =>
      match sum_order_totals orders, sorted_desc orders with
      | Some total_spent, Some sorted =>
          Some {| total_orders := length orders;
                  total_spent_orders := total_spent;
                  completed_orders := length (filter is_completed orders);
                  recent_orders := firstn 5 sorted |}
      | _, _ => None        (** [TypeError]; [except Exception: return None] *)
      end
  | Ok [] => None           (** [if response.data: ...] fails; [return None] *)
  | Raise _ => None         (** [except Exception: return None] *)
  end.

(** ** Session helpers of [utils/auth.py] *)

(** [logout]: the user and the access token are reset; [st.rerun()] then
    stops the script run. *)
Definition logout : M unit :=
  s <- get_session ;;
  put_session {| user := None; access_token := None; wp_token := wp_token s;
                 current_time := current_time s |}.

(** [get_user_client]: [st.session_state.get('access_token') is not None]. *)
Definition get_user_client : M bool :=
  s <- get_session ;;
  ret (match access_token s with Some _ => true | None => false end).

(** The wrapper built by [require_auth] (the second definition in the file,
    which replaces the first): without a user it renders the sign-in page
    and returns [None], otherwise it runs [func]. *)
Definition require_auth {A} (show_auth_page : M unit) (func : M A) : M (option A) :=
  s <- get_session ;;
  match user s with
  | None => _ <- show_auth_page ;; ret None
  | Some _ => a <- func ;; ret (Some a)
  end.

(** ** Proof-side definitions *)

Open Scope list_scope.

(** The [product_ids] set after the loop, in the reference reading. *)
Fixpoint dedup_seen (seen : list Z) (l : list (order * line_item)) : list Z :=
  match l with
  | [] => seen
  | (o, it) :: rest =>
      match li_product_id it with
      | Some pid =>
          if negb (pid =? 0) && negb (existsb (Z.eqb pid) seen)
          then dedup_seen (pid :: seen) rest
          else dedup_seen seen rest
      | None => dedup_seen seen rest
      end
  end.

(** The gateway failure modes of [get_user_purchased_products]. *)
Inductive purchase_lookup_failure (E : env) (email : string) : Prop :=
| plf_no_config :
    wp_config E = false -> purchase_lookup_failure E email
| plf_customers_timeout :
    gw_customers (gw E) email = Timeout -> purchase_lookup_failure E email
| plf_customers_connection :
    gw_customers (gw E) email = ConnectionError -> purchase_lookup_failure E email
| plf_customers_status (s : Z) (b : option (list customer)) :
    gw_customers (gw E) email = Response s b -> s <> 200 -> purchase_lookup_failure E email
| plf_customers_not_json :
    gw_customers (gw E) email = Response 200 None -> purchase_lookup_failure E email
| plf_no_customer :
    gw_customers (gw E) email = Response 200 (Some []) -> purchase_lookup_failure E email
| plf_customer_without_id (c : customer) (cs : list customer) :
    gw_customers (gw E) email = Response 200 (Some (c :: cs)) -> c_id c = None ->
    purchase_lookup_failure E email
| plf_orders_timeout (c : customer) (cs : list customer) (cid : Z) :
    gw_customers (gw E) email = Response 200 (Some (c :: cs)) -> c_id c = Some cid ->
    gw_orders (gw E) cid = Timeout -> purchase_lookup_failure E email
| plf_orders_connection (c : customer) (cs : list customer) (cid : Z) :
    gw_customers (gw E) email = Response 200 (Some (c :: cs)) -> c_id c = Some cid ->
    gw_orders (gw E) cid = ConnectionError -> purchase_lookup_failure E email
| plf_orders_status (c : customer) (cs : list customer) (cid : Z) (s : Z) (b : option (list order)) :
    gw_customers (gw E) email = Response 200 (Some (c :: cs)) -> c_id c = Some cid ->
    gw_orders (gw E) cid = Response s b -> s <> 200 -> purchase_lookup_failure E email
| plf_orders_not_json (c : customer) (cs : list customer) (cid : Z) :
    gw_customers (gw E) email = Response 200 (Some (c :: cs)) -> c_id c = Some cid ->
    gw_orders (gw E) cid = Response 200 None -> purchase_lookup_failure E email.

(** The permissions of the tier reached with [n] purchases. *)
Definition tier_permissions (n : nat) : list string :=
  opt_default [] (access_levels (tier_by_count_spec n)).

(** [a] comes no later than [b] in [recent_orders]: its date is not smaller. *)
(** The sort key of a row whose [date_created] is not null. *)
Definition date_str (o : wc_order_row) : string := opt_default "" (wo_date_created o).

Definition newer_first (a b : wc_order_row) : Prop :=
  String.leb (date_str b) (date_str a) = true.

(** A computation on the ledger that leaves the [api_usage] rows of every
    key other than [k] as they are, whatever it raises. *)
Definition frames_other_keys {A} (k : Z) (m : M A) : Prop :=
  forall w j, j <> k ->
    filter (fun x => a_wp_user_id x =? j) (api_usage (snd (m w)))
    = filter (fun x => a_wp_user_id x =? j) (api_usage w).

(** ** Sample inputs *)

Definition sample_item (pid : option Z) (total : string) : line_item :=
  mk_line_item pid None None (Some total).

Definition sample_gateway (orders : list order) : gateway :=
  {| gw_customers := fun _ => Response 200 (Some [mk_customer (Some 7) None None None]);
     gw_orders := fun _ => Response 200 (Some orders);
     gw_token := fun _ _ => Response 200 (Some (mk_token_data (Some "tok") None));
     gw_me := fun _ => Response 200 (Some (mk_wp_user (Some 5) (Some "ann@example.com")
                                                   None None None));
     gw_validate := fun _ => Response 403 None |}.

Definition sample_env (orders : list order) : env :=
  mk_env true true (sample_gateway orders) (fun s => Z.of_nat (String.length s)).

(** The spec's scenario: product 1 twice (the second time from a second
    order), product 2 once. *)
Definition scenario_orders : list order :=
  [ mk_order (Some 101) None (Some [sample_item (Some 1) "20.00"]);
    mk_order (Some 102) None (Some [sample_item (Some 1) "20.00"; sample_item (Some 2) "15.00"]) ].


Definition empty_session : session := mk_session None None None None.

Definition empty_world (fs : list nat) : world := mk_world [] [] empty_session 0 fs.

(** At most one [api_usage] row per key. *)
Definition usage_keys_unique (t : list usage_row) : Prop :=
  forall k : Z, Nat.le (length (filter (fun r => a_wp_user_id r =? k) t)) 1.

(** A computation that keeps [usage_keys_unique], whatever it raises. *)
Definition keeps_usage_unique {A} (m : M A) : Prop :=
  forall w, usage_keys_unique (api_usage w) -> usage_keys_unique (api_usage (snd (m w))).

(** The ways [validate_wp_token] rejects a token. *)
Inductive token_rejected (E : env) : option string -> Prop :=
| tr_no_config (t : option string) : wp_config E = false -> token_rejected E t
| tr_no_token : token_rejected E None
| tr_empty_token : token_rejected E (Some EmptyString)
| tr_timeout (t : string) :
    t <> EmptyString -> gw_validate (gw E) t = Timeout -> token_rejected E (Some t)
| tr_connection (t : string) :
    t <> EmptyString -> gw_validate (gw E) t = ConnectionError -> token_rejected E (Some t)
| tr_status (t : string) (s : Z) (b : option unit) :
    t <> EmptyString -> gw_validate (gw E) t = Response s b -> s <> 200 ->
    token_rejected E (Some t).

Definition cleared_session (s : session) : session :=
  {| user := None; access_token := None; wp_token := None; current_time := current_time s |}.

(** The usage row [increment_usage] writes over [r]. *)
Definition bumped_row (r : usage_row) (queries : Z) (t : string) : usage_row :=
  {| a_wp_user_id := a_wp_user_id r; a_email := a_email r; a_queries := queries;
     a_last_query := Some t; a_created_at := a_created_at r |}.

(** A sign-in answered by the sample gateway for the email-only identity
    of the C9 scenario. *)
Definition email_only_user : user_data :=
  {| ud_wp_user_id := None; ud_wc_customer_id := None; ud_email := "bo@example.com";
     ud_username := Some "bo"; ud_display_name := None; ud_wp_token := None;
     ud_purchased_products := purchases_kept scenario_orders; ud_product_access := true;
     ud_roles := [] |}.

Definition wp_user_five : user_data :=
  {| ud_wp_user_id := Some 5; ud_wc_customer_id := None; ud_email := "ann@example.com";
     ud_username := Some "ann"; ud_display_name := None; ud_wp_token := Some "tok";
     ud_purchased_products := purchases_kept scenario_orders; ud_product_access := true;
     ud_roles := [] |}.

(** The same sample gateway in a process whose string hash differs. *)
Definition sample_env_rehashed (orders : list order) : env :=
  mk_env true true (sample_gateway orders) (fun s => Z.of_nat (String.length s) + 1).

(** The sample gateway in a process whose string hash sends
    ["bo@example.com"] to 5, the [wp_user_id] of another user. *)
Definition sample_env_colliding (orders : list order) : env :=
  mk_env true true (sample_gateway orders)
    (fun s => if String.eqb s "bo@example.com" then 5 else Z.of_nat (String.length s)).

(** The sample gateway refusing the credentials (401), so that sign-in goes
    through the customer lookup; the customer is named Ann Lee. *)
Definition customer_env (orders : list order) : env :=
  mk_env true true
    {| gw_customers := fun _ => Response 200 (Some [mk_customer (Some 7) None (Some "Ann") (Some "Lee")]);
       gw_orders := fun _ => Response 200 (Some orders);
       gw_token := fun _ _ => Response 401 None;
       gw_me := fun _ => Timeout;
       gw_validate := fun _ => Response 403 None |}
    (fun s => Z.of_nat (String.length s)).

(** The sample gateway answering a token response without a [token] key. *)
Definition tokenless_env (orders : list order) : env :=
  mk_env true true
    {| gw_customers := gw_customers (sample_gateway orders);
       gw_orders := gw_orders (sample_gateway orders);
       gw_token := fun _ _ => Response 200 (Some (mk_token_data None (Some "ann")));
       gw_me := gw_me (sample_gateway orders);
       gw_validate := gw_validate (sample_gateway orders) |}
    (fun s => Z.of_nat (String.length s)).

(** Three [wc_orders] rows: two completed, one pending, two with the same date. *)
Definition sample_wc_orders : list wc_order_row :=
  [ mk_wc_order_row 1 (Some (20 # 1)) (Some "completed") (Some "2024-01-05");
    mk_wc_order_row 2 (Some (15 # 1)) (Some "pending") (Some "2024-03-01");
    mk_wc_order_row 3 (Some (10 # 1)) (Some "completed") (Some "2024-01-05") ].

(** Two rows, the first with a null [date_created]. *)
Definition sample_wc_orders_null_date : list wc_order_row :=
  [ mk_wc_order_row 4 (Some (12 # 1)) (Some "completed") None;
    mk_wc_order_row 5 (Some (8 # 1)) (Some "pending") (Some "2024-02-10") ].

Definition sample_session_user : session_user :=
  mk_session_user 5 "ann@example.com" None None [] true.

(** ** Resolver lemmas *)

Lemma tier_if_chain (n : nat) :
  (if (5 <=? n)%nat then enterprise
   else if (3 <=? n)%nat then premium
   else if (1 <=? n)%nat then basic else none) = tier_by_count_spec n.
Proof.
  do 5 (destruct n as [|n]; [reflexivity|]). reflexivity.
Qed.

Lemma tier_by_count_spec_mono (n m : nat) :
  (n <= m)%nat -> (level_rank (tier_by_count_spec n) <= level_rank (tier_by_count_spec m))%nat.
Proof.
  intros H.
  do 5 (destruct n as [|n]; [destruct m as [|[|[|[|[|m]]]]]; simpl; lia|]).
  destruct m as [|[|[|[|[|m]]]]]; simpl; lia.
Qed.

Lemma access_info_of_level (ps : list purchase) (info : access_info) :
  access_info_of ps = Ok info -> access_level info = tier_by_count_spec (length ps).
Proof.
  destruct ps as [|p ps]; simpl.
  - intros H; inversion H; reflexivity.
  - destruct (sum_totals (p :: ps)) as [t|e]; simpl; intros H; inversion H; subst; simpl.
    apply (tier_if_chain (S (length ps))).
Qed.

Lemma scan_items_spec (o : order) (items : list line_item) (seen : list Z) (acc : list purchase) :
  fold_left (scan_item o) items (seen, acc)
  = (dedup_seen seen (map (pair o) items), acc ++ dedup_truthy seen (map (pair o) items)).
Proof.
  revert seen acc; induction items as [|it items IH]; intros seen acc; simpl.
  - rewrite app_nil_r; reflexivity.
  - destruct (li_product_id it) as [pid|].
    + destruct (negb (pid =? 0) && negb (existsb (Z.eqb pid) seen)).
      * rewrite IH, <- app_assoc; reflexivity.
      * apply IH.
    + apply IH.
Qed.

Lemma dedup_app (l1 l2 : list (order * line_item)) (seen : list Z) :
  dedup_truthy seen (l1 ++ l2) = dedup_truthy seen l1 ++ dedup_truthy (dedup_seen seen l1) l2
  /\ dedup_seen seen (l1 ++ l2) = dedup_seen (dedup_seen seen l1) l2.
Proof.
  revert seen; induction l1 as [|[o it] l1 IH]; intros seen; simpl; [split; reflexivity|].
  destruct (li_product_id it) as [pid|]; [destruct (negb (pid =? 0) && negb (existsb (Z.eqb pid) seen))|];
    try (destruct (IH (pid :: seen)) as [IH1 IH2]; rewrite IH1, IH2; split; reflexivity);
    destruct (IH seen) as [IH1 IH2]; rewrite IH1, IH2; split; reflexivity.
Qed.

Lemma scan_orders_spec (orders : list order) (seen : list Z) (acc : list purchase) :
  fold_left scan_order orders (seen, acc)
  = (dedup_seen seen (flatten_items orders), acc ++ dedup_truthy seen (flatten_items orders)).
Proof.
  revert seen acc; induction orders as [|o orders IH]; intros seen acc; simpl.
  - rewrite app_nil_r; reflexivity.
  - change (scan_order (seen, acc) o)
      with (fold_left (scan_item o) (opt_default [] (o_line_items o)) (seen, acc)).
    rewrite scan_items_spec, IH.
    destruct (dedup_app (map (pair o) (opt_default [] (o_line_items o))) (flatten_items orders) seen)
      as [H1 H2].
    rewrite H1, H2, app_assoc; reflexivity.
Qed.

Lemma extract_purchases_kept (orders : list order) :
  extract_purchases orders = purchases_kept orders.
Proof.
  unfold extract_purchases, purchases_kept. rewrite scan_orders_spec; reflexivity.
Qed.


(** ** Claims *)

(** C1: for every purchase list, the access level that
    [get_user_product_access_level] computes from it (through
    [access_info_of]) is the spec's table applied to the purchase count:
    0 -> none, 1-2 -> basic, 3-4 -> premium, 5 and more -> enterprise;
    hence the level is monotonic in the count. *)
Theorem access_level_determined_by_count :
  (forall (ps : list purchase) (info : access_info),
     access_info_of ps = Ok info -> access_level info = tier_by_count_spec (length ps)) /\
  (forall (ps1 ps2 : list purchase) (i1 i2 : access_info),
     access_info_of ps1 = Ok i1 -> access_info_of ps2 = Ok i2 ->
     (length ps1 <= length ps2)%nat ->
     (level_rank (access_level i1) <= level_rank (access_level i2))%nat).
Proof.
  split.
  - exact access_info_of_level.
  - intros ps1 ps2 i1 i2 H1 H2 Hle.
    rewrite (access_info_of_level _ _ H1), (access_info_of_level _ _ H2).
    apply tier_by_count_spec_mono; exact Hle.
Qed.

Lemma access_level_determined_by_count_witness :
  exists i1 i2,
    access_info_of (purchases_kept scenario_orders) = Ok i1 /\
    access_level i1 = tier_by_count_spec 2 /\
    access_info_of [] = Ok i2 /\
    (level_rank (access_level i2) <= level_rank (access_level i1))%nat.
Proof.
  do 2 eexists. split; [cbv; reflexivity|]. split.
  - apply (proj1 access_level_determined_by_count (purchases_kept scenario_orders)).
    cbv; reflexivity.
  - split; [cbv; reflexivity|].
    apply (proj2 access_level_determined_by_count [] (purchases_kept scenario_orders));
      [cbv; reflexivity | cbv; reflexivity | simpl; lia].
Defined.




Lemma in_faults_existsb (n : nat) (l : list nat) :
  In n l -> existsb (Nat.eqb n) l = true.
Proof.
  intros H; apply existsb_exists; exists n; split; [exact H | apply Nat.eqb_refl].
Qed.

Lemma not_in_faults_existsb (n : nat) (l : list nat) :
  ~ In n l -> existsb (Nat.eqb n) l = false.
Proof.
  intros H. destruct (existsb (Nat.eqb n) l) eqn:E; [|reflexivity].
  apply existsb_exists in E as [m [Hm Heq]]. apply Nat.eqb_eq in Heq; subst; contradiction.
Qed.

(** C4: under every gateway failure mode (no configuration, a timeout or
    connection error on either query, a non-200 answer or a body that is not
    JSON from either query, no matching customer, a customer without id),
    [get_user_purchased_products] returns the empty list; its result is a
    list in every case, the [try] catching whatever the body raises. *)
Theorem purchases_empty_on_gateway_failure (E : env) (email : string) :
  purchase_lookup_failure E email -> get_user_purchased_products E email = [].
Proof.
  unfold get_user_purchased_products, purchased_products_try.
  intros H; destruct H as
    [Hc | Hc | Hc | s b Hc Hs | Hc | Hc | c cs Hc Hid | c cs cid Hc Hid Ho
    | c cs cid Hc Hid Ho | c cs cid s b Hc Hid Ho Hs | c cs cid Hc Hid Ho];
    try (rewrite Hc; reflexivity);
    destruct (wp_config E); try reflexivity; simpl; rewrite Hc; simpl;
    try (rewrite Hid; simpl); try (rewrite Ho; simpl); try reflexivity.
  - apply Z.eqb_neq in Hs; rewrite Hs; reflexivity.
  - apply Z.eqb_neq in Hs; rewrite Hs; reflexivity.
Qed.

Lemma purchases_empty_on_gateway_failure_witness :
  get_user_purchased_products
    (mk_env true true
       {| gw_customers := fun _ => Response 200 (Some [mk_customer (Some 7) None None None]);
          gw_orders := fun _ => Timeout;
          gw_token := fun _ _ => Timeout; gw_me := fun _ => Timeout;
          gw_validate := fun _ => Timeout |}
       (fun _ => 0))
    "ann@example.com" = [].
Proof.
  apply purchases_empty_on_gateway_failure.
  eapply plf_orders_timeout; reflexivity.
Defined.

(** C10: when the store is unavailable or its read of the usage counter
    raises, [get_user_usage] returns 0 whatever the stored counter, and
    [check_usage_limit] admits for every positive limit. *)
Theorem usage_check_fails_open (E : env) (w : world) (k : Z) (email : string) (limit : Z) :
  supabase E = false \/ In (ops w) (faults w) ->
  0 < limit ->
  fst (get_user_usage E k email w) = Ok 0 /\
  fst (check_usage_limit E k email limit w) = Ok true.
Proof.
  intros Hf Hl.
  unfold check_usage_limit, get_user_usage, bind, try_except, try_only, ret,
    select_usage, store_call.
  destruct (supabase E) eqn:Hs; simpl.
  - destruct Hf as [Hf | Hf]; [discriminate|].
    rewrite (in_faults_existsb _ _ Hf); simpl.
    split; [reflexivity|]. f_equal. apply Z.ltb_lt; exact Hl.
  - split; [reflexivity|]. f_equal. apply Z.ltb_lt; exact Hl.
Qed.

Lemma usage_check_fails_open_witness :
  fst (get_user_usage (sample_env [])  5 "ann@example.com"
         (mk_world [] [mk_usage_row 5 "ann@example.com" 30 None None] empty_session 0 [0%nat])) = Ok 0 /\
  fst (check_usage_limit (sample_env []) 5 "ann@example.com" 30
         (mk_world [] [mk_usage_row 5 "ann@example.com" 30 None None] empty_session 0 [0%nat])) = Ok true.
Proof.
  apply usage_check_fails_open; [right; simpl; left; reflexivity | lia].
Defined.

(** C3: when the credentials obtain a token and the profile is fetched but
    the purchase list resolved for the profile's email is empty,
    [woo_product_login] and [login] return [None] and leave the world as it
    was: no store call is made (no [wp_users] or [api_usage] write) and the
    session, in particular an unauthenticated one, is unchanged. *)
Theorem login_denied_without_purchases
    (E : env) (w : world) (email password tok : string) (td : token_data) (wu : wp_user) :
  wp_config E = true ->
  gw_token (gw E) email password = Response 200 (Some td) ->
  td_token td = Some tok ->
  gw_me (gw E) tok = Response 200 (Some wu) ->
  get_user_purchased_products E (opt_default email (wu_email wu)) = [] ->
  woo_product_login E email password w = (Ok None, w) /\
  login E email password w = (Ok None, w).
Proof.
  intros Hcfg Htok Htd Hme Hp.
  assert (Hw : woo_product_login E email password w = (Ok None, w)).
  { unfold woo_product_login. rewrite Hcfg; simpl.
    unfold try_only, bind, lift. rewrite Htok; simpl.
    rewrite Htd; simpl. rewrite Hme; simpl. rewrite Hp. reflexivity. }
  split; [exact Hw|].
  unfold login, try_except, try_only, bind. rewrite Hw. reflexivity.
Qed.

Lemma login_denied_without_purchases_witness :
  login (sample_env []) "ann" "secret" (empty_world []) = (Ok None, empty_world []).
Proof.
  apply (login_denied_without_purchases (sample_env []) (empty_world []) "ann" "secret" "tok"
           (mk_token_data (Some "tok") None)
           (mk_wp_user (Some 5) (Some "ann@example.com") None None None));
    vm_compute; reflexivity.
Defined.

(** ** Session lemmas *)

Lemma validate_rejected (E : env) (t : option string) :
  token_rejected E t -> validate_wp_token E t = false.
Proof.
  unfold validate_wp_token.
  intros H; destruct H as [t Hc | | | t Hne Hv | t Hne Hv | t s b Hne Hv Hs];
    try (rewrite Hc; reflexivity);
    destruct (wp_config E); try reflexivity; simpl;
    try (destruct t; [contradiction|]; rewrite Hv; try reflexivity).
  apply Z.eqb_neq; exact Hs.
Qed.

(** C8 (against [check_authentication] as the spec describes it, the
    function being absent from the sources): whenever the session's token
    is rejected by [validate_wp_token] (no configuration, no or empty token,
    timeout, connection error, non-200 answer), [check_authentication]
    returns [False] and its one session write leaves no user and no token,
    so the session is unauthenticated; nothing else in the world changes. *)
Theorem check_authentication_clears_on_rejection (E : env) (w : world) :
  token_rejected E (access_token (sess w)) ->
  check_authentication E w = (Ok false, set_sess (cleared_session (sess w)) w) /\
  user (cleared_session (sess w)) = None /\
  access_token (cleared_session (sess w)) = None /\
  wp_token (cleared_session (sess w)) = None /\
  authenticated (cleared_session (sess w)) = false.
Proof.
  intros H. apply validate_rejected in H.
  split; [|repeat split].
  unfold check_authentication, bind, get_session, put_session, ret.
  destruct (user (sess w)); [rewrite H|]; reflexivity.
Qed.

Lemma check_authentication_clears_on_rejection_witness :
  check_authentication (sample_env [])
    (mk_world [] [] (mk_session (Some (mk_session_user 5 "ann@example.com" None None [] true))
                                (Some "tok") None None) 0 [])
  = (Ok false, mk_world [] [] (mk_session None None None None) 0 []).
Proof.
  apply (check_authentication_clears_on_rejection (sample_env [])
    (mk_world [] [] (mk_session (Some (mk_session_user 5 "ann@example.com" None None [] true))
                                (Some "tok") None None) 0 [])).
  simpl. apply (tr_status _ "tok" 403 None); [discriminate | reflexivity | discriminate].
Defined.

(** ** Store lemmas *)

Lemma filter_map_same_key (j k : Z) (f : usage_row -> usage_row) (l : list usage_row) :
  (forall x, a_wp_user_id (f x) = a_wp_user_id x) ->
  filter (fun x => a_wp_user_id x =? j) (map (fun x => if a_wp_user_id x =? k then f x else x) l)
  = map (fun x => if a_wp_user_id x =? k then f x else x) (filter (fun x => a_wp_user_id x =? j) l).
Proof.
  intros Hf; induction l as [|x l IH]; simpl; [reflexivity|].
  destruct (a_wp_user_id x =? k) eqn:Hk; simpl; rewrite ?Hf;
    destruct (a_wp_user_id x =? j); simpl; rewrite ?Hk, IH; reflexivity.
Qed.

(** C7 (as amended): when the store is available and the key has one
    [api_usage] row [r], [increment_usage] whose read succeeds writes
    [queries = N + 1] and [last_query] = the session's [current_time]
    ([now()] when unset) over [r] and returns [True] if the update
    succeeds; if the update raises it returns [False] and the table is
    unchanged. *)
Theorem increment_usage_adds_one (E : env) (w : world) (k : Z) (email : string) (r : usage_row) :
  supabase E = true ->
  filter (fun x => a_wp_user_id x =? k) (api_usage w) = [r] ->
  ~ In (ops w) (faults w) ->
  (~ In (S (ops w)) (faults w) ->
     fst (increment_usage E k email w) = Ok true /\
     filter (fun x => a_wp_user_id x =? k) (api_usage (snd (increment_usage E k email w)))
       = [bumped_row r (a_queries r + 1) (opt_default "now()" (current_time (sess w)))]) /\
  (In (S (ops w)) (faults w) ->
     fst (increment_usage E k email w) = Ok false /\
     api_usage (snd (increment_usage E k email w)) = api_usage w).
Proof.
  intros Hs Hr H0.
  assert (Hk : a_wp_user_id r = k).
  { assert (Hin : In r (filter (fun x => a_wp_user_id x =? k) (api_usage w)))
      by (rewrite Hr; left; reflexivity).
    apply filter_In in Hin as [_ Hin]. apply Z.eqb_eq; exact Hin. }
  unfold increment_usage, get_user_usage, try_except, try_only, bind, ret,
    select_usage, update_usage, store_call, get_current_time.
  rewrite Hs; cbn -[Nat.eqb]. rewrite (not_in_faults_existsb _ _ H0); cbn -[Nat.eqb].
  rewrite Hr; cbn -[Nat.eqb].
  split; intros H1.
  - rewrite (not_in_faults_existsb _ _ H1); cbn -[Nat.eqb]. split; [reflexivity|].
    rewrite filter_map_same_key by reflexivity. rewrite Hr; simpl.
    replace (a_wp_user_id r =? k) with true by (rewrite Hk; symmetry; apply Z.eqb_refl).
    reflexivity.
  - rewrite (in_faults_existsb _ _ H1); cbn -[Nat.eqb]. split; reflexivity.
Qed.

Lemma increment_usage_adds_one_witness :
  fst (increment_usage (sample_env []) 5 "ann@example.com"
         (mk_world [] [mk_usage_row 5 "ann@example.com" 4 None None] empty_session 0 [])) = Ok true.
Proof.
  apply (proj1 (increment_usage_adds_one (sample_env [])
     (mk_world [] [mk_usage_row 5 "ann@example.com" 4 None None] empty_session 0 [])
     5 "ann@example.com" (mk_usage_row 5 "ann@example.com" 4 None None)
     eq_refl eq_refl (fun H => H))).
  intros H; exact H.
Defined.

(** C7, counterexample: the key's counter is 4 and the update raises, so
    after the call it is still 4, not 5. *)
Lemma increment_usage_counterexample :
  let w' := snd (increment_usage (sample_env []) 5 "ann@example.com"
                   (mk_world [] [mk_usage_row 5 "ann@example.com" 4 None None]
                             empty_session 0 [1%nat])) in
  map a_queries (filter (fun x => a_wp_user_id x =? 5) (api_usage w')) = [4].
Proof. vm_compute. reflexivity. Qed.

Lemma keeps_bind {A B} (m : M A) (f : A -> M B) :
  keeps_usage_unique m -> (forall a, keeps_usage_unique (f a)) ->
  keeps_usage_unique (bind m f).
Proof.
  intros Hm Hf w Hw. unfold bind.
  pose proof (Hm w Hw) as H; revert H.
  destruct (m w) as [[a|e] w']; simpl; intros H; [apply Hf|]; exact H.
Qed.

Lemma keeps_try_only {A} (p : exn -> bool) (m : M A) (h : exn -> M A) :
  keeps_usage_unique m -> (forall e, keeps_usage_unique (h e)) ->
  keeps_usage_unique (try_only p m h).
Proof.
  intros Hm Hh w Hw. unfold try_only.
  pose proof (Hm w Hw) as H; revert H.
  destruct (m w) as [[a|e] w']; simpl; intros H; [exact H|].
  destruct (p e); [apply Hh|]; exact H.
Qed.

Lemma keeps_ret {A} (a : A) : keeps_usage_unique (ret a).
Proof. intros w Hw; exact Hw. Qed.

Lemma keeps_current_time : keeps_usage_unique get_current_time.
Proof. intros w Hw; exact Hw. Qed.

Lemma keeps_store_call {A} (f : world -> A * world) :
  (forall w, api_usage (snd (f w)) = api_usage w) -> keeps_usage_unique (store_call f).
Proof.
  intros Hf w Hw. unfold store_call.
  destruct (existsb (Nat.eqb (ops w)) (faults w)); [exact Hw|].
  pose proof (Hf (set_ops (S (ops w)) w)) as H.
  destruct (f (set_ops (S (ops w)) w)) as [a w2]; simpl in *. rewrite H; exact Hw.
Qed.

Lemma keeps_update_usage (k : Z) (f : usage_row -> usage_row) :
  (forall x, a_wp_user_id (f x) = a_wp_user_id x) -> keeps_usage_unique (update_usage k f).
Proof.
  intros Hf w Hw. unfold update_usage, store_call.
  destruct (existsb (Nat.eqb (ops w)) (faults w)); [exact Hw|]. simpl.
  intros j. rewrite filter_map_same_key by exact Hf. rewrite length_map. apply Hw.
Qed.

Lemma insert_keeps_unique (l : list usage_row) (r : usage_row) (k : Z) :
  usage_keys_unique l -> filter (fun x => a_wp_user_id x =? k) l = [] ->
  a_wp_user_id r = k -> usage_keys_unique (l ++ [r]).
Proof.
  intros Hu Hf Hr j. rewrite filter_app, length_app. simpl.
  destruct (a_wp_user_id r =? j) eqn:Hj; simpl.
  - apply Z.eqb_eq in Hj. subst. rewrite Hf. simpl. lia.
  - specialize (Hu j). lia.
Qed.

Lemma keeps_initialize (E : env) (k : Z) (email : string) :
  keeps_usage_unique (initialize_user_usage E k email).
Proof.
  intros w Hw. unfold initialize_user_usage.
  destruct (supabase E); simpl; [|exact Hw].
  unfold try_except, try_only, bind, select_usage, insert_usage, store_call, get_current_time, ret.
  cbn -[Nat.eqb filter].
  destruct (existsb (Nat.eqb (ops w)) (faults w)); cbn -[Nat.eqb filter]; [exact Hw|].
  destruct (filter (fun r => a_wp_user_id r =? k) (api_usage w)) eqn:Hf;
    cbn -[Nat.eqb filter]; [|exact Hw].
  destruct (existsb (Nat.eqb (S (ops w))) (faults w)); cbn -[Nat.eqb filter]; [exact Hw|].
  apply (insert_keeps_unique _ _ k Hw Hf); reflexivity.
Qed.

Lemma keeps_get_user_usage (E : env) (k : Z) (email : string) :
  keeps_usage_unique (get_user_usage E k email).
Proof.
  unfold get_user_usage. destruct (supabase E); simpl; [|apply keeps_ret].
  apply keeps_try_only; [|intros; apply keeps_ret].
  apply keeps_bind; [apply keeps_store_call; reflexivity|].
  intros [|r rs]; [|apply keeps_ret].
  apply keeps_bind; [apply keeps_initialize | intros; apply keeps_ret].
Qed.

Lemma keeps_increment_usage (E : env) (k : Z) (email : string) :
  keeps_usage_unique (increment_usage E k email).
Proof.
  unfold increment_usage. destruct (supabase E); simpl; [|apply keeps_ret].
  apply keeps_try_only; [|intros; apply keeps_ret].
  apply keeps_bind; [apply keeps_get_user_usage|]. intros current.
  apply keeps_bind; [apply keeps_current_time|]. intros t.
  apply keeps_bind; [apply keeps_update_usage; reflexivity | intros; apply keeps_ret].
Qed.

Lemma keeps_sync (E : env) (ud : user_data) :
  keeps_usage_unique (sync_woo_product_user E ud).
Proof.
  unfold sync_woo_product_user. destruct (supabase E); simpl; [|apply keeps_ret].
  apply keeps_try_only; [|intros; apply keeps_ret].
  apply keeps_bind; [apply keeps_current_time|]. intros t.
  apply keeps_bind; [apply keeps_store_call; reflexivity|]. intros existing.
  apply keeps_bind.
  - destruct existing.
    + apply keeps_bind; [apply keeps_current_time | intros; apply keeps_store_call; reflexivity].
    + apply keeps_store_call; reflexivity.
  - intros _. apply keeps_bind; [apply keeps_initialize | intros; apply keeps_ret].
Qed.

Lemma initialize_total (E : env) (k : Z) (email : string) (w : world) :
  wp_users (snd (initialize_user_usage E k email w)) = wp_users w /\
  faults (snd (initialize_user_usage E k email w)) = faults w /\
  exists b, fst (initialize_user_usage E k email w) = Ok b.
Proof.
  unfold initialize_user_usage.
  destruct (supabase E); simpl; [|split; [|split]; [reflexivity|reflexivity|eexists; reflexivity]].
  unfold try_except, try_only, bind, select_usage, insert_usage, store_call, get_current_time, ret.
  cbn -[Nat.eqb filter].
  destruct (existsb (Nat.eqb (ops w)) (faults w)); cbn -[Nat.eqb filter];
    [split; [|split]; [reflexivity|reflexivity|eexists; reflexivity]|].
  destruct (filter (fun r => a_wp_user_id r =? k) (api_usage w));
    cbn -[Nat.eqb filter]; [|split; [|split]; [reflexivity|reflexivity|eexists; reflexivity]].
  destruct (existsb (Nat.eqb (S (ops w))) (faults w)); cbn -[Nat.eqb filter];
    split; [|split| |split]; try reflexivity; eexists; reflexivity.
Qed.

(** C6 (as amended): when the store calls succeed, [get_user_usage] on a
    key without [api_usage] row returns 0 and appends exactly one row
    (counter 0) for it, and a second call returns 0 and leaves the table
    as it is; when any store call it makes fails, [get_user_usage] returns
    0; [get_user_usage], [initialize_user_usage], [increment_usage] and
    [sync_woo_product_user] keep at most one row per key, whatever store
    calls fail. *)
Theorem get_usage_creates_one_record (E : env) (k : Z) (email : string) :
  (forall w : world,
     supabase E = true ->
     filter (fun x => a_wp_user_id x =? k) (api_usage w) = [] ->
     ~ In (ops w) (faults w) -> ~ In (S (ops w)) (faults w) ->
     ~ In (S (S (ops w))) (faults w) ->
     fst (get_user_usage E k email w) = Ok 0 /\
     api_usage (snd (get_user_usage E k email w))
       = api_usage w ++ [mk_usage_row k email 0 None
                           (Some (opt_default "now()" (current_time (sess w))))] /\
     (~ In (ops (snd (get_user_usage E k email w))) (faults (snd (get_user_usage E k email w))) ->
      get_user_usage E k email (snd (get_user_usage E k email w))
      = (Ok 0, set_ops (S (ops (snd (get_user_usage E k email w))))
                       (snd (get_user_usage E k email w))))) /\
  (forall w : world,
     (exists n, (ops w <= n < ops (snd (get_user_usage E k email w)))%nat /\ In n (faults w)) ->
     fst (get_user_usage E k email w) = Ok 0) /\
  keeps_usage_unique (get_user_usage E k email) /\
  keeps_usage_unique (initialize_user_usage E k email) /\
  keeps_usage_unique (increment_usage E k email) /\
  (forall ud, keeps_usage_unique (sync_woo_product_user E ud)).
Proof.
  split; [|split; [|split; [apply keeps_get_user_usage|split; [apply keeps_initialize|
          split; [apply keeps_increment_usage | intros; apply keeps_sync]]]]].
  2:{ intros w [n [Hn Hin]]. revert Hn.
      unfold get_user_usage. destruct (supabase E); simpl negb; cbv iota; [|intros; reflexivity].
      unfold try_except, try_only, bind, select_usage, store_call, ret.
      cbn -[Nat.eqb filter initialize_user_usage].
      destruct (existsb (Nat.eqb (ops w)) (faults w)) eqn:H0;
        cbn -[Nat.eqb filter initialize_user_usage]; [intros; reflexivity|].
      destruct (filter (fun r => a_wp_user_id r =? k) (api_usage w)) as [|r rs];
        cbn -[Nat.eqb filter initialize_user_usage].
      - match goal with
        | |- context [initialize_user_usage ?E' ?k' ?e ?w'] =>
            destruct (initialize_total E' k' e w') as [_ [_ [b Hb]]];
            destruct (initialize_user_usage E' k' e w') as [res w3]
        end. simpl in Hb. subst res. intros; reflexivity.
      - intros Hn. assert (n = ops w) by lia. subst n.
        rewrite (in_faults_existsb _ _ Hin) in H0. discriminate. }
  intros w Hs Hf H0 H1 H2.
  assert (Hrun : get_user_usage E k email w
    = (Ok 0, set_api_usage (api_usage w ++ [mk_usage_row k email 0 None
                           (Some (opt_default "now()" (current_time (sess w))))])
               (set_ops (S (S (S (ops w)))) w))).
  { unfold get_user_usage, initialize_user_usage. rewrite Hs. simpl negb. cbv iota.
    unfold try_except, try_only, bind, select_usage, insert_usage, store_call,
      get_current_time, ret.
    cbn -[Nat.eqb filter]. rewrite (not_in_faults_existsb _ _ H0).
    cbn -[Nat.eqb filter]. rewrite Hf. cbn -[Nat.eqb filter].
    rewrite (not_in_faults_existsb _ _ H1). cbn -[Nat.eqb filter]. rewrite Hf.
    cbn -[Nat.eqb filter]. rewrite (not_in_faults_existsb _ _ H2). reflexivity. }
  rewrite Hrun. split; [reflexivity|]. split; [reflexivity|].
  simpl. intros H3.
  unfold get_user_usage. rewrite Hs. simpl negb. cbv iota.
  unfold try_except, try_only, bind, select_usage, store_call, ret.
  cbn -[Nat.eqb filter]. rewrite (not_in_faults_existsb _ _ H3).
  cbn -[Nat.eqb filter]. rewrite filter_app, Hf. simpl. rewrite Z.eqb_refl. reflexivity.
Qed.

Lemma get_usage_creates_one_record_witness :
  fst (get_user_usage (sample_env []) 5 "ann@example.com" (empty_world [])) = Ok 0.
Proof.
  apply (proj1 (proj1 (get_usage_creates_one_record (sample_env []) 5 "ann@example.com")
                  (empty_world []) eq_refl eq_refl
                  (fun H => H) (fun H => H) (fun H => H))).
Defined.

(** C6, counterexample: the insert of the new row raises; [get_user_usage]
    still returns 0 but the key is left with no row, not exactly one. *)
Lemma get_usage_creates_one_record_counterexample :
  fst (get_user_usage (sample_env []) 5 "ann@example.com" (empty_world [2%nat])) = Ok 0 /\
  filter (fun x => a_wp_user_id x =? 5)
    (api_usage (snd (get_user_usage (sample_env []) 5 "ann@example.com" (empty_world [2%nat]))))
  = [].
Proof. vm_compute. split; reflexivity. Qed.

(** [initialize_user_usage_tracking] of [utils/wordpress_auth.py] adds a
    second row for a key that already has one. *)
Lemma usage_tracking_duplicates_row :
  let w := mk_world [] [mk_usage_row 5 "ann@example.com" 0 None None] empty_session 0 [] in
  length (filter (fun x => a_wp_user_id x =? 5)
            (api_usage (snd (initialize_user_usage_tracking (sample_env []) 5 "ann@example.com"
                               "2026-01-01T00:00:00+00:00" w)))) = 2%nat.
Proof. vm_compute. reflexivity. Qed.

Lemma initialize_ensures_row (E : env) (k : Z) (email : string) (w : world) :
  supabase E = true -> faults w = [] ->
  existsb (fun r => a_wp_user_id r =? k) (api_usage (snd (initialize_user_usage E k email w)))
  = true.
Proof.
  intros Hs Hf. unfold initialize_user_usage. rewrite Hs. simpl negb. cbv iota.
  unfold try_except, try_only, bind, select_usage, insert_usage, store_call, get_current_time, ret.
  cbn -[Nat.eqb filter]. rewrite Hf. cbn -[Nat.eqb filter].
  destruct (filter (fun r => a_wp_user_id r =? k) (api_usage w)) as [|r rs] eqn:Hr;
    cbn -[Nat.eqb filter].
  - rewrite Hf; cbn -[Nat.eqb filter]. apply existsb_exists. eexists; split; [apply in_or_app; right; left; reflexivity|].
    simpl. apply Z.eqb_refl.
  - assert (Hin : In r (filter (fun x => a_wp_user_id x =? k) (api_usage w)))
      by (rewrite Hr; left; reflexivity).
    apply filter_In in Hin. apply existsb_exists. exists r; exact Hin.
Qed.

Lemma lookup_filter_keeps_key (ud : user_data) (t : string) (r : user_row) :
  matches (lookup_filter ud) (apply_user_update (supabase_data ud t) r) = true.
Proof.
  unfold lookup_filter.
  destruct (truthy_id (ud_wp_user_id ud)) eqn:Hw.
  - destruct (ud_wp_user_id ud) as [z|] eqn:Ez; [|discriminate]. simpl. rewrite Ez.
    apply Z.eqb_refl.
  - destruct (truthy_id (ud_wc_customer_id ud)) eqn:Hc.
    + destruct (ud_wc_customer_id ud) as [z|] eqn:Ez; [|discriminate]. simpl. rewrite Ez.
      apply Z.eqb_refl.
    + simpl. apply String.eqb_refl.
Qed.

(** C5 (as amended): [sync_woo_product_user] picks its filter by
    [wp_user_id] when truthy, else [wc_customer_id] when truthy, else
    [email]; it returns [False] without touching the store when Supabase is
    unavailable; when the select and the write on [wp_users] succeed it
    updates in place the rows the filter selects (which the filter still
    selects afterwards, with no row added), or appends one row carrying
    [created_at], and returns [True] (a failure inside
    [initialize_user_usage] is absorbed there); when the select or the
    write raises it returns [False] with [wp_users] unchanged.  It never
    raises. *)
Theorem sync_user_upsert (E : env) (ud : user_data) (w : world) :
  let t := opt_default "now()" (current_time (sess w)) in
  let flt := lookup_filter ud in
  (forall z, ud_wp_user_id ud = Some z -> z <> 0 -> flt = ByWpUserId z) /\
  (truthy_id (ud_wp_user_id ud) = false ->
     forall z, ud_wc_customer_id ud = Some z -> z <> 0 -> flt = ByWcCustomerId z) /\
  (truthy_id (ud_wp_user_id ud) = false -> truthy_id (ud_wc_customer_id ud) = false ->
     flt = ByEmail (ud_email ud)) /\
  (forall r, matches flt (apply_user_update (supabase_data ud t) r) = true) /\
  (supabase E = false -> sync_woo_product_user E ud w = (Ok false, w)) /\
  (supabase E = true -> ~ In (ops w) (faults w) -> ~ In (S (ops w)) (faults w) ->
     fst (sync_woo_product_user E ud w) = Ok true /\
     wp_users (snd (sync_woo_product_user E ud w))
     = match filter (matches flt) (wp_users w) with
       | [] => wp_users w ++ [with_created_at (supabase_data ud t) t]
       | _ => map (fun r => if matches flt r then apply_user_update (supabase_data ud t) r else r)
                  (wp_users w)
       end) /\
  (supabase E = true -> In (ops w) (faults w) \/ In (S (ops w)) (faults w) ->
     fst (sync_woo_product_user E ud w) = Ok false /\
     wp_users (snd (sync_woo_product_user E ud w)) = wp_users w).
Proof.
  intros t flt. unfold flt, lookup_filter.
  split; [|split; [|split; [|split; [|split; [|split]]]]].
  - intros z Hz Hne. rewrite Hz. simpl. apply Z.eqb_neq in Hne. rewrite Hne. reflexivity.
  - intros Hw z Hz Hne. rewrite Hw, Hz. simpl. apply Z.eqb_neq in Hne. rewrite Hne. reflexivity.
  - intros Hw Hc. rewrite Hw, Hc. reflexivity.
  - intros r. apply lookup_filter_keeps_key.
  - intros Hs. unfold sync_woo_product_user. rewrite Hs. reflexivity.
  - fold (lookup_filter ud). intros Hs H0 H1.
    unfold sync_woo_product_user. rewrite Hs. simpl negb. cbv iota.
    unfold try_except, try_only, bind, get_current_time, select_users, insert_users,
      update_users, store_call, ret.
    cbn -[Nat.eqb filter initialize_user_usage]. rewrite (not_in_faults_existsb _ _ H0).
    cbn -[Nat.eqb filter initialize_user_usage].
    destruct (filter (matches (lookup_filter ud)) (wp_users w)) eqn:Hf;
      cbn -[Nat.eqb filter initialize_user_usage];
      rewrite (not_in_faults_existsb _ _ H1); cbn -[Nat.eqb filter initialize_user_usage];
      match goal with
      | |- context [initialize_user_usage ?E' ?k ?e ?w'] =>
          destruct (initialize_total E' k e w') as [Hu [_ [b Hb]]];
          destruct (initialize_user_usage E' k e w') as [r w3]
      end; simpl in Hb, Hu; subst r; simpl; split; try reflexivity; exact Hu.
  - fold (lookup_filter ud). intros Hs Hf.
    unfold sync_woo_product_user. rewrite Hs. simpl negb. cbv iota.
    unfold try_except, try_only, bind, get_current_time, select_users, insert_users,
      update_users, store_call, ret.
    cbn -[Nat.eqb filter initialize_user_usage].
    destruct (existsb (Nat.eqb (ops w)) (faults w)) eqn:H0;
      cbn -[Nat.eqb filter initialize_user_usage]; [split; reflexivity|].
    assert (H1 : existsb (Nat.eqb (S (ops w))) (faults w) = true).
    { destruct Hf as [Hf|Hf]; [|apply in_faults_existsb; exact Hf].
      rewrite (in_faults_existsb _ _ Hf) in H0; discriminate. }
    destruct (filter (matches (lookup_filter ud)) (wp_users w));
      cbn -[Nat.eqb filter initialize_user_usage]; rewrite H1; split; reflexivity.
Qed.

Lemma sync_user_upsert_witness :
  fst (sync_woo_product_user (sample_env []) wp_user_five (empty_world [])) = Ok true.
Proof.
  apply (proj1 (proj1 (proj2 (proj2 (proj2 (proj2 (proj2
           (sync_user_upsert (sample_env []) wp_user_five (empty_world []))))))) eq_refl
           (fun H => H) (fun H => H))).
Defined.

(** C5, counterexample: the [api_usage] select made by
    [initialize_user_usage] (store call 2) raises, yet
    [sync_woo_product_user] returns [True]. *)
Lemma sync_user_upsert_counterexample :
  fst (sync_woo_product_user (sample_env []) wp_user_five (empty_world [2%nat])) = Ok true /\
  In 2%nat (faults (empty_world [2%nat])) /\
  (2 < ops (snd (sync_woo_product_user (sample_env []) wp_user_five (empty_world [2%nat]))))%nat.
Proof. vm_compute. split; [reflexivity|split; [left; reflexivity | repeat constructor]]. Qed.

(** C9, what the code does: [sync_woo_product_user] initialises the usage record
    under the value of the identity's lookup key when that key is
    [wp_user_id] or [wc_customer_id] (both stored in the [wp_user_id]
    column of [api_usage]), but for an identity looked up by [email] it
    uses [hash(email)], the process's string hash; after a sync whose store
    calls all succeed, a usage row exists under that key. *)
Theorem usage_key_follows_lookup (E : env) (ud : user_data) :
  (forall z, ud_wp_user_id ud = Some z -> z <> 0 ->
     lookup_filter ud = ByWpUserId z /\ usage_key E ud = z) /\
  (truthy_id (ud_wp_user_id ud) = false ->
     forall z, ud_wc_customer_id ud = Some z -> z <> 0 ->
     lookup_filter ud = ByWcCustomerId z /\ usage_key E ud = z) /\
  (truthy_id (ud_wp_user_id ud) = false -> truthy_id (ud_wc_customer_id ud) = false ->
     lookup_filter ud = ByEmail (ud_email ud) /\ usage_key E ud = py_hash E (ud_email ud)) /\
  (forall w, supabase E = true -> faults w = [] ->
     existsb (fun r => a_wp_user_id r =? usage_key E ud)
             (api_usage (snd (sync_woo_product_user E ud w))) = true).
Proof.
  unfold lookup_filter, usage_key, py_or.
  split; [|split; [|split]].
  - intros z Hz Hne. rewrite Hz. simpl. apply Z.eqb_neq in Hne. rewrite Hne. simpl.
    rewrite Hne. split; reflexivity.
  - intros Hw z Hz Hne. rewrite Hw, Hz. simpl. apply Z.eqb_neq in Hne. rewrite Hne.
    split; reflexivity.
  - intros Hw Hc. rewrite Hw, Hc. split; reflexivity.
  - fold (lookup_filter ud). fold (py_or (ud_wp_user_id ud) (ud_wc_customer_id ud)).
    fold (usage_key E ud). intros w Hs Hf.
    unfold sync_woo_product_user. rewrite Hs. simpl negb. cbv iota.
    unfold try_except, try_only, bind, get_current_time, select_users, insert_users,
      update_users, store_call, ret.
    cbn -[Nat.eqb filter initialize_user_usage]. rewrite Hf.
    cbn -[Nat.eqb filter initialize_user_usage].
    destruct (filter (matches (lookup_filter ud)) (wp_users w));
      cbn -[Nat.eqb filter initialize_user_usage]; rewrite Hf;
      cbn -[Nat.eqb filter initialize_user_usage];
      match goal with
      | |- context [initialize_user_usage ?E' ?k ?e ?w'] =>
          pose proof (initialize_ensures_row E' k e w' Hs Hf) as Hi;
          destruct (initialize_total E' k e w') as [_ [_ [b Hb]]];
          destruct (initialize_user_usage E' k e w') as [r w3]
      end; simpl in Hb, Hi; subst r; exact Hi.
Qed.

Lemma usage_key_follows_lookup_witness :
  existsb (fun r => a_wp_user_id r =? usage_key (sample_env []) email_only_user)
    (api_usage (snd (sync_woo_product_user (sample_env []) email_only_user (empty_world []))))
  = true.
Proof.
  apply (proj2 (proj2 (proj2 (usage_key_follows_lookup (sample_env []) email_only_user)))
           (empty_world []) eq_refl eq_refl).
Defined.

(** C9, counterexample, in one pass: the email-only identity bo is looked
    up by its email, but its usage record is created and read under
    [hash(email)]; where that hash equals the [wp_user_id] 5 of ann, who
    already has a usage row (30 queries), the pass creates no usage row for
    bo, and the record read under bo's usage key is ann's. *)
Lemma usage_key_counterexample :
  let w0 := mk_world [] [mk_usage_row 5 "ann@example.com" 30 None None] empty_session 0 [] in
  let w1 := snd (sync_woo_product_user (sample_env_colliding []) email_only_user w0) in
  lookup_filter email_only_user = ByEmail "bo@example.com" /\
  usage_key (sample_env_colliding []) email_only_user = 5 /\
  fst (sync_woo_product_user (sample_env_colliding []) email_only_user w0) = Ok true /\
  filter (fun r => String.eqb (a_email r) "bo@example.com") (api_usage w1) = [] /\
  map a_email (filter (fun r => a_wp_user_id r =? usage_key (sample_env_colliding []) email_only_user)
                 (api_usage w1)) = ["ann@example.com"] /\
  fst (get_user_usage (sample_env_colliding []) (usage_key (sample_env_colliding []) email_only_user)
         "bo@example.com" w1) = Ok 30.
Proof. vm_compute. repeat split. Qed.

(** Across processes: the same email-only identity synchronised in two
    processes (two string hashes) is looked up by the same email both times
    and updates its one [wp_users] row, but its usage record is created
    under two different keys, leaving two usage rows for it. *)
Lemma usage_key_differs_across_processes :
  let w1 := snd (sync_woo_product_user (sample_env []) email_only_user (empty_world [])) in
  let w2 := snd (sync_woo_product_user (sample_env_rehashed []) email_only_user w1) in
  lookup_filter email_only_user = ByEmail "bo@example.com" /\
  usage_key (sample_env []) email_only_user
    <> usage_key (sample_env_rehashed []) email_only_user /\
  length (wp_users w2) = 1%nat /\
  length (filter (fun r => String.eqb (a_email r) "bo@example.com") (api_usage w2)) = 2%nat.
Proof. vm_compute. split; [reflexivity|split; [discriminate|split; reflexivity]]. Qed.

(** ** Further resolver lemmas *)

Lemma dedup_truthy_ids (l : list (order * line_item)) (seen : list Z) :
  NoDup (map p_product_id (dedup_truthy seen l)) /\
  (forall z, In z (map p_product_id (dedup_truthy seen l)) -> z <> 0 /\ ~ In z seen).
Proof.
  revert seen; induction l as [|[o it] l IH]; intros seen; simpl.
  - split; [constructor | intros z []].
  - destruct (li_product_id it) as [pid|]; [|apply IH].
    destruct (negb (pid =? 0) && negb (existsb (Z.eqb pid) seen)) eqn:Hk; [|apply IH].
    apply andb_true_iff in Hk as [Hz Hs]. apply negb_true_iff in Hz, Hs.
    apply Z.eqb_neq in Hz.
    destruct (IH (pid :: seen)) as [Hnd Hall]. simpl. split.
    + constructor; [|exact Hnd].
      intros Hin. destruct (Hall pid Hin) as [_ Hn]. apply Hn; left; reflexivity.
    + intros z [->|Hin].
      * split; [exact Hz|]. intros Hin.
        assert (existsb (Z.eqb z) seen = true)
          by (apply existsb_exists; exists z; split; [exact Hin | apply Z.eqb_refl]).
        congruence.
      * destruct (Hall z Hin) as [Hz' Hn]. split; [exact Hz'|]. intros Hs'; apply Hn; right; exact Hs'.
Qed.

Lemma dedup_truthy_from (l : list (order * line_item)) (seen : list Z) (p : purchase) :
  In p (dedup_truthy seen l) ->
  exists o it, In (o, it) l /\ li_product_id it = Some (p_product_id p) /\
               p = purchase_of o it (p_product_id p).
Proof.
  revert seen; induction l as [|[o it] l IH]; intros seen; simpl; [intros []|].
  destruct (li_product_id it) as [pid|] eqn:Hid.
  - destruct (negb (pid =? 0) && negb (existsb (Z.eqb pid) seen)).
    + intros [<-|Hin].
      * exists o, it. simpl. split; [left; reflexivity | split; [exact Hid | reflexivity]].
      * destruct (IH _ Hin) as [o' [it' [H1 H2]]]. exists o', it'. split; [right; exact H1 | exact H2].
    + intros Hin. destruct (IH _ Hin) as [o' [it' [H1 H2]]]. exists o', it'. split; [right; exact H1 | exact H2].
  - intros Hin. destruct (IH _ Hin) as [o' [it' [H1 H2]]]. exists o', it'. split; [right; exact H1 | exact H2].
Qed.

Lemma dedup_truthy_complete (l : list (order * line_item)) (seen : list Z) (o : order)
    (it : line_item) (pid : Z) :
  In (o, it) l -> li_product_id it = Some pid -> pid <> 0 ->
  In pid seen \/ In pid (map p_product_id (dedup_truthy seen l)).
Proof.
  revert seen; induction l as [|[o' it'] l IH]; intros seen; simpl; [intros []|].
  intros Hin Hid Hz.
  destruct (li_product_id it') as [pid'|] eqn:Hid'.
  - destruct (negb (pid' =? 0) && negb (existsb (Z.eqb pid') seen)) eqn:Hk.
    + destruct Hin as [Heq|Hin].
      * inversion Heq; subst. rewrite Hid in Hid'. inversion Hid'; subst.
        right; simpl; left; reflexivity.
      * destruct (IH (pid' :: seen) Hin Hid Hz) as [[<-|Hs]|Hr].
        -- right; simpl; left; reflexivity.
        -- left; exact Hs.
        -- right; simpl; right; exact Hr.
    + destruct Hin as [Heq|Hin]; [|exact (IH seen Hin Hid Hz)].
      inversion Heq; subst. rewrite Hid in Hid'. inversion Hid'; subst.
      left. apply Z.eqb_neq in Hz. rewrite Hz in Hk. simpl in Hk.
      apply negb_false_iff, existsb_exists in Hk as [x [Hx Heqx]].
      apply Z.eqb_eq in Heqx; subst; exact Hx.
  - destruct Hin as [Heq|Hin]; [|exact (IH seen Hin Hid Hz)].
    inversion Heq; subst. congruence.
Qed.

Lemma flatten_items_In (orders : list order) (o : order) (it : line_item) :
  In (o, it) (flatten_items orders) <-> In o orders /\ In it (opt_default [] (o_line_items o)).
Proof.
  unfold flatten_items. rewrite in_flat_map. split.
  - intros [o' [Ho' Hin]]. apply in_map_iff in Hin as [it' [Heq Hit]].
    inversion Heq; subst. split; assumption.
  - intros [Ho Hit]. exists o. split; [exact Ho|]. apply in_map_iff. exists it; split; [reflexivity|exact Hit].
Qed.

Lemma purchased_products_try_shape (G : gateway) (email : string) (l : list purchase) :
  purchased_products_try G email = Ok l -> l = [] \/ exists orders, l = purchases_kept orders.
Proof.
  unfold purchased_products_try.
  destruct (send (gw_customers G email)) as [[s b]|e]; simpl; [|discriminate].
  destruct (negb (s =? 200)); [intros H; inversion H; left; reflexivity|].
  destruct (json b) as [cs|e]; simpl; [|discriminate].
  destruct cs as [|c cs]; [intros H; inversion H; left; reflexivity|]. simpl.
  destruct (c_id c) as [cid|]; simpl; [|discriminate].
  destruct (send (gw_orders G cid)) as [[s2 b2]|e]; simpl; [|discriminate].
  destruct (negb (s2 =? 200)); [intros H; inversion H; left; reflexivity|].
  destruct (json b2) as [os|e]; simpl; [|discriminate].
  intros H; inversion H; subst. right. exists os. apply extract_purchases_kept.
Qed.

Lemma purchased_ids_wellformed (E : env) (email : string) :
  NoDup (map p_product_id (get_user_purchased_products E email)) /\
  (forall z, In z (map p_product_id (get_user_purchased_products E email)) -> z <> 0).
Proof.
  unfold get_user_purchased_products.
  destruct (wp_config E); simpl; [|split; [constructor | intros z []]].
  destruct (purchased_products_try (gw E) email) as [l|e] eqn:Ht; [|split; [constructor | intros z []]].
  destruct (purchased_products_try_shape _ _ _ Ht) as [->|[os ->]]; [split; [constructor | intros z []]|].
  destruct (dedup_truthy_ids (flatten_items os) []) as [H1 H2].
  split; [exact H1|]. intros z Hz; apply (H2 z Hz).
Qed.

Lemma gupp_on_orders (E : env) (email : string) (c : customer) (cs : list customer) (cid : Z)
    (orders : list order) :
  wp_config E = true ->
  gw_customers (gw E) email = Response 200 (Some (c :: cs)) ->
  c_id c = Some cid ->
  gw_orders (gw E) cid = Response 200 (Some orders) ->
  get_user_purchased_products E email = purchases_kept orders.
Proof.
  intros Hcfg Hcust Hid Hord.
  unfold get_user_purchased_products, purchased_products_try.
  rewrite Hcfg, Hcust; simpl. rewrite Hid; simpl. rewrite Hord; simpl.
  apply extract_purchases_kept.
Qed.

Lemma access_info_of_permissions (ps : list purchase) (info : access_info) :
  access_info_of ps = Ok info -> permissions info = tier_permissions (length ps).
Proof.
  destruct ps as [|p ps]; simpl.
  - intros H; inversion H; reflexivity.
  - destruct (sum_totals (p :: ps)) as [t|e]; simpl; intros H; inversion H; subst; simpl.
    unfold tier_permissions. rewrite <- (tier_if_chain (S (length ps))). reflexivity.
Qed.

Lemma tier_permissions_mono (n m : nat) :
  (n <= m)%nat -> incl (tier_permissions n) (tier_permissions m).
Proof.
  intros H.
  do 5 (destruct n as [|n];
        [destruct m as [|[|[|[|[|m]]]]]; try lia; intros x; simpl; tauto|]).
  destruct m as [|[|[|[|[|m]]]]]; try lia; intros x; simpl; tauto.
Qed.

Lemma tier_permissions_api (n : nat) :
  In "api_access" (tier_permissions n) <-> (5 <= n)%nat.
Proof.
  do 5 (destruct n as [|n]; [split; [intros H; simpl in H; intuition discriminate | lia]|]).
  simpl. split; [lia|]. intros _. right; right; right; left; reflexivity.
Qed.

Lemma tier_permissions_nil (n : nat) : tier_permissions n = [] <-> n = 0%nat.
Proof.
  destruct n as [|[|[|[|[|n]]]]]; simpl; split; intros H; try reflexivity; discriminate.
Qed.

(** ** Further properties *)

(** [get_user_purchased_products], whatever the gateway answers: the
    product ids of the returned purchases are pairwise distinct and none of
    them is 0. *)
Theorem purchased_ids_distinct_nonzero (E : env) (email : string) :
  NoDup (map p_product_id (get_user_purchased_products E email)) /\
  Forall (fun z => z <> 0) (map p_product_id (get_user_purchased_products E email)).
Proof.
  destruct (purchased_ids_wellformed E email) as [H1 H2].
  split; [exact H1|]. apply Forall_forall; exact H2.
Qed.

(** [get_user_purchased_products], when the gateway finds a customer and
    returns its orders: every purchase is built ([purchase_of]) from a line
    item of one of the returned orders that carries its product id, and
    every line item of those orders with a nonzero product id has that id
    in the purchase list. *)
Theorem purchases_cover_line_items (E : env) (email : string) (c : customer) (cs : list customer)
    (cid : Z) (orders : list order) :
  wp_config E = true ->
  gw_customers (gw E) email = Response 200 (Some (c :: cs)) ->
  c_id c = Some cid ->
  gw_orders (gw E) cid = Response 200 (Some orders) ->
  (forall p, In p (get_user_purchased_products E email) ->
     exists o it, In o orders /\ In it (opt_default [] (o_line_items o)) /\
       li_product_id it = Some (p_product_id p) /\ p = purchase_of o it (p_product_id p)) /\
  (forall o it pid, In o orders -> In it (opt_default [] (o_line_items o)) ->
     li_product_id it = Some pid -> pid <> 0 ->
     In pid (map p_product_id (get_user_purchased_products E email))).
Proof.
  intros Hcfg Hcust Hid Hord.
  rewrite (gupp_on_orders E email c cs cid orders Hcfg Hcust Hid Hord).
  unfold purchases_kept. split.
  - intros p Hp. destruct (dedup_truthy_from _ _ _ Hp) as [o [it [Hin [H1 H2]]]].
    apply flatten_items_In in Hin as [Ho Hit].
    exists o, it. repeat split; assumption.
  - intros o it pid Ho Hit Hpid Hz.
    assert (Hin : In (o, it) (flatten_items orders)) by (apply flatten_items_In; split; assumption).
    destruct (dedup_truthy_complete _ [] o it pid Hin Hpid Hz) as [[]|H]; exact H.
Qed.

Lemma purchases_cover_line_items_witness :
  In 2 (map p_product_id (get_user_purchased_products (sample_env scenario_orders) "ann@example.com")).
Proof.
  apply (proj2 (purchases_cover_line_items (sample_env scenario_orders) "ann@example.com"
                  (mk_customer (Some 7) None None None) [] 7 scenario_orders
                  eq_refl eq_refl eq_refl eq_refl)
           (mk_order (Some 102) None (Some [sample_item (Some 1) "20.00"; sample_item (Some 2) "15.00"]))
           (sample_item (Some 2) "15.00") 2).
  - simpl; right; left; reflexivity.
  - simpl; right; left; reflexivity.
  - reflexivity.
  - discriminate.
Defined.

(** [check_product_access] is true exactly when the purchase list is
    non-empty and either no product is required ([None] or an empty list)
    or one of the required ids is a purchased product id; a non-empty
    requirement made only of the id 0 is never met. *)
Theorem check_product_access_iff (E : env) (email : string) :
  (forall req,
     check_product_access E email req = true <->
     get_user_purchased_products E email <> [] /\
     match req with
     | None | Some [] => True
     | Some r => exists pid, In pid r /\ In pid (map p_product_id (get_user_purchased_products E email))
     end) /\
  (forall r, r <> [] -> (forall pid, In pid r -> pid = 0) ->
     check_product_access E email (Some r) = false).
Proof.
  pose proof (proj2 (purchased_ids_wellformed E email)) as Hnz.
  unfold check_product_access. split.
  - intros req. destruct (get_user_purchased_products E email) as [|p ps] eqn:Hg.
    + split; [discriminate | intros [H _]; congruence].
    + destruct req as [[|z r]|].
      * split; [intros _; split; [discriminate | exact I] | reflexivity].
      * rewrite existsb_exists. split.
        -- intros [pid [Hin Hex]]. split; [discriminate|]. exists pid. split; [exact Hin|].
           apply existsb_exists in Hex as [x [Hx Heq]]. apply Z.eqb_eq in Heq; subst; exact Hx.
        -- intros [_ [pid [Hin Hx]]]. exists pid. split; [exact Hin|].
           apply existsb_exists. exists pid. split; [exact Hx | apply Z.eqb_refl].
      * split; [intros _; split; [discriminate | exact I] | reflexivity].
  - intros r Hne H0. destruct (get_user_purchased_products E email) as [|p ps] eqn:Hg; [reflexivity|].
    destruct r as [|z r]; [congruence|].
    apply not_true_is_false. intros Hex. apply existsb_exists in Hex as [pid [Hin Hex]].
    apply existsb_exists in Hex as [x [Hx Heq]]. apply Z.eqb_eq in Heq; subst.
    apply (Hnz x Hx). apply H0; exact Hin.
Qed.

Lemma check_product_access_iff_witness :
  check_product_access (sample_env scenario_orders) "ann@example.com" (Some [0]) = false.
Proof.
  apply (proj2 (check_product_access_iff (sample_env scenario_orders) "ann@example.com") [0]).
  - discriminate.
  - intros pid [H|[]]; symmetry; exact H.
Defined.

(** [get_user_product_access_level]: the permissions are those of the tier
    reached by the purchase count; they are empty exactly when there is no
    purchase, contain [api_access] exactly from 5 purchases on, and never
    shrink when the count grows. *)
Theorem permissions_follow_count :
  (forall (ps : list purchase) (info : access_info),
     access_info_of ps = Ok info ->
     permissions info = tier_permissions (length ps) /\
     (permissions info = [] <-> ps = []) /\
     (In "api_access" (permissions info) <-> (5 <= length ps)%nat)) /\
  (forall (ps1 ps2 : list purchase) (i1 i2 : access_info),
     access_info_of ps1 = Ok i1 -> access_info_of ps2 = Ok i2 ->
     (length ps1 <= length ps2)%nat -> incl (permissions i1) (permissions i2)).
Proof.
  split.
  - intros ps info H. rewrite (access_info_of_permissions _ _ H).
    split; [reflexivity|]. split; [|apply tier_permissions_api].
    rewrite tier_permissions_nil. destruct ps; simpl; split; intros; congruence.
  - intros ps1 ps2 i1 i2 H1 H2 Hle.
    rewrite (access_info_of_permissions _ _ H1), (access_info_of_permissions _ _ H2).
    apply tier_permissions_mono; exact Hle.
Qed.

Lemma permissions_follow_count_witness :
  exists info, access_info_of (purchases_kept scenario_orders) = Ok info /\
    ~ In "api_access" (permissions info).
Proof.
  eexists. split; [vm_compute; reflexivity|].
  rewrite (proj2 (proj2 (proj1 permissions_follow_count (purchases_kept scenario_orders) _ eq_refl))).
  vm_compute. lia.
Defined.

(** [initialize_user_usage], when every store call succeeds: it returns
    [True], and a second call finds the row, returns [True] and changes
    nothing but the store-call counter. *)
Theorem initialize_usage_idempotent (E : env) (k : Z) (email : string) (w : world) :
  supabase E = true -> faults w = [] ->
  fst (initialize_user_usage E k email w) = Ok true /\
  (let w1 := snd (initialize_user_usage E k email w) in
   initialize_user_usage E k email w1 = (Ok true, set_ops (S (ops w1)) w1)).
Proof.
  intros Hs Hf. split.
  - unfold initialize_user_usage. rewrite Hs. simpl negb. cbv iota.
    unfold try_except, try_only, bind, select_usage, insert_usage, store_call, get_current_time, ret.
    cbn -[Nat.eqb filter]. rewrite Hf. cbn -[Nat.eqb filter].
    destruct (filter (fun r => a_wp_user_id r =? k) (api_usage w)); cbn -[Nat.eqb filter];
      [rewrite Hf|]; reflexivity.
  - intros w1.
    assert (Hrow := initialize_ensures_row E k email w Hs Hf).
    destruct (initialize_total E k email w) as [_ [Hf1 _]].
    fold w1 in Hrow, Hf1. rewrite Hf in Hf1.
    unfold initialize_user_usage. rewrite Hs. simpl negb. cbv iota.
    unfold try_except, try_only, bind, select_usage, store_call, ret.
    cbn -[Nat.eqb filter]. rewrite Hf1. cbn -[Nat.eqb filter].
    destruct (filter (fun r => a_wp_user_id r =? k) (api_usage w1)) eqn:Hr; [|reflexivity].
    apply existsb_exists in Hrow as [r [Hin Hk]].
    assert (Hin' : In r (filter (fun r => a_wp_user_id r =? k) (api_usage w1)))
      by (apply filter_In; split; assumption).
    rewrite Hr in Hin'; destruct Hin'.
Qed.

Lemma initialize_usage_idempotent_witness :
  fst (initialize_user_usage (sample_env []) 5 "ann@example.com" (empty_world [])) = Ok true.
Proof.
  apply (proj1 (initialize_usage_idempotent (sample_env []) 5 "ann@example.com" (empty_world [])
                  eq_refl eq_refl)).
Defined.

Lemma increment_run (E : env) (k : Z) (email : string) (w : world) :
  supabase E = true -> faults w = [] ->
  let t := opt_default "now()" (current_time (sess w)) in
  let rows := filter (fun x => a_wp_user_id x =? k) (api_usage w) in
  let n := match rows with r :: _ => a_queries r | [] => 0 end in
  fst (increment_usage E k email w) = Ok true /\
  faults (snd (increment_usage E k email w)) = faults w /\
  sess (snd (increment_usage E k email w)) = sess w /\
  filter (fun x => a_wp_user_id x =? k) (api_usage (snd (increment_usage E k email w)))
  = map (fun x => bumped_row x (n + 1) t)
        (match rows with [] => [mk_usage_row k email 0 None (Some t)] | _ => rows end).
Proof.
  intros Hs Hf t rows n.
  unfold increment_usage, get_user_usage, initialize_user_usage, try_except, try_only, bind, ret,
    select_usage, insert_usage, update_usage, store_call, get_current_time.
  rewrite Hs; cbn -[Nat.eqb filter]. rewrite Hf; cbn -[Nat.eqb filter].
  unfold n, rows; clear n rows.
  destruct (filter (fun x => a_wp_user_id x =? k) (api_usage w)) as [|r rs] eqn:Hr;
    cbn -[Nat.eqb filter].
  - do 3 (rewrite ?Hr, ?Hf; cbn -[Nat.eqb filter]).
    split; [reflexivity|]. split; [first [reflexivity | exact Hf]|].
    split; [reflexivity|].
    rewrite filter_map_same_key by reflexivity. rewrite filter_app, Hr. simpl.
    rewrite Z.eqb_refl. simpl. rewrite Z.eqb_refl. reflexivity.
  - rewrite Hf; cbn -[Nat.eqb filter].
    split; [reflexivity|]. split; [first [reflexivity | exact Hf]|]. split; [reflexivity|].
    rewrite filter_map_same_key by reflexivity. rewrite Hr.
    assert (Hall : forall x, In x (r :: rs) -> (a_wp_user_id x =? k) = true).
    { intros x Hx. rewrite <- Hr in Hx. apply filter_In in Hx as [_ Hx]; exact Hx. }
    transitivity (map (fun x => bumped_row x (a_queries r + 1) t) (r :: rs)); [|reflexivity].
    apply map_ext_in. intros x Hx. rewrite (Hall x Hx). reflexivity.
Qed.

(** [increment_usage] on a key with no [api_usage] row, when every store
    call succeeds: it returns [True] and leaves exactly one row for the key,
    with counter 1 and [last_query] and [created_at] both the session's
    current time. *)
Theorem increment_new_key_starts_at_one (E : env) (k : Z) (email : string) (w : world) :
  supabase E = true -> faults w = [] ->
  filter (fun x => a_wp_user_id x =? k) (api_usage w) = [] ->
  let t := opt_default "now()" (current_time (sess w)) in
  fst (increment_usage E k email w) = Ok true /\
  filter (fun x => a_wp_user_id x =? k) (api_usage (snd (increment_usage E k email w)))
  = [mk_usage_row k email 1 (Some t) (Some t)].
Proof.
  intros Hs Hf Hr t.
  destruct (increment_run E k email w Hs Hf) as [H1 [_ [_ H4]]].
  split; [exact H1|]. rewrite H4. simpl. rewrite Hr. reflexivity.
Qed.

Lemma increment_new_key_starts_at_one_witness :
  filter (fun x => a_wp_user_id x =? 5)
    (api_usage (snd (increment_usage (sample_env []) 5 "ann@example.com" (empty_world []))))
  = [mk_usage_row 5 "ann@example.com" 1 (Some "now()") (Some "now()")].
Proof.
  apply (proj2 (increment_new_key_starts_at_one (sample_env []) 5 "ann@example.com" (empty_world [])
                  eq_refl eq_refl eq_refl)).
Defined.

(** [increment_usage] then [get_user_usage] / [check_usage_limit], when
    every store call succeeds: the read after the increment returns the
    counter read before it (the first row's, 0 without a row) plus one, and
    the limit check compares that value with the limit. *)
Theorem increment_then_read (E : env) (k : Z) (email : string) (limit : Z) (w : world) :
  supabase E = true -> faults w = [] ->
  let n := match filter (fun x => a_wp_user_id x =? k) (api_usage w) with
           | r :: _ => a_queries r | [] => 0 end in
  let w' := snd (increment_usage E k email w) in
  fst (get_user_usage E k email w') = Ok (n + 1) /\
  fst (check_usage_limit E k email limit w') = Ok (n + 1 <? limit).
Proof.
  intros Hs Hf n w'.
  destruct (increment_run E k email w Hs Hf) as [_ [Hf' [_ Hrows]]].
  fold n w' in Hf', Hrows. rewrite Hf in Hf'.
  assert (Hread : fst (get_user_usage E k email w') = Ok (n + 1)).
  { unfold get_user_usage, try_except, try_only, bind, ret, select_usage, store_call.
    rewrite Hs; cbn -[Nat.eqb filter]. rewrite Hf'; cbn -[Nat.eqb filter].
    rewrite Hrows. destruct (filter (fun x => a_wp_user_id x =? k) (api_usage w)); reflexivity. }
  split; [exact Hread|].
  unfold check_usage_limit, bind. destruct (get_user_usage E k email w') as [r w2].
  simpl in Hread. subst r. reflexivity.
Qed.

Lemma increment_then_read_witness :
  fst (check_usage_limit (sample_env []) 5 "ann@example.com" 30
         (snd (increment_usage (sample_env []) 5 "ann@example.com"
                 (mk_world [] [mk_usage_row 5 "ann@example.com" 29 None None] empty_session 0 []))))
  = Ok false.
Proof.
  apply (proj2 (increment_then_read (sample_env []) 5 "ann@example.com" 30
                  (mk_world [] [mk_usage_row 5 "ann@example.com" 29 None None] empty_session 0 [])
                  eq_refl eq_refl)).
Defined.

Lemma filter_map_update_users (flt : user_filter) (upd : user_row -> user_row) (l : list user_row) :
  (forall r, matches flt (upd r) = true) ->
  filter (matches flt) (map (fun r => if matches flt r then upd r else r) l)
  = map upd (filter (matches flt) l).
Proof.
  intros Hu; induction l as [|r l IH]; simpl; [reflexivity|].
  destruct (matches flt r) eqn:Hm; simpl; rewrite ?Hu, ?Hm, IH; reflexivity.
Qed.

Lemma sync_run (E : env) (ud : user_data) (w : world) :
  supabase E = true -> faults w = [] ->
  let t := opt_default "now()" (current_time (sess w)) in
  let flt := lookup_filter ud in
  fst (sync_woo_product_user E ud w) = Ok true /\
  faults (snd (sync_woo_product_user E ud w)) = [] /\
  wp_users (snd (sync_woo_product_user E ud w))
  = match filter (matches flt) (wp_users w) with
    | [] => wp_users w ++ [with_created_at (supabase_data ud t) t]
    | _ => map (fun r => if matches flt r then apply_user_update (supabase_data ud t) r else r)
               (wp_users w)
    end.
Proof.
  intros Hs Hf t flt. unfold flt.
  unfold sync_woo_product_user. rewrite Hs. simpl negb. cbv iota.
  unfold try_except, try_only, bind, get_current_time, select_users, insert_users,
    update_users, store_call, ret.
  cbn -[Nat.eqb filter initialize_user_usage]. rewrite Hf.
  cbn -[Nat.eqb filter initialize_user_usage].
  destruct (filter (matches (lookup_filter ud)) (wp_users w));
    cbn -[Nat.eqb filter initialize_user_usage]; rewrite Hf;
    cbn -[Nat.eqb filter initialize_user_usage];
    match goal with
    | |- context [initialize_user_usage ?E' ?k ?e ?w'] =>
        destruct (initialize_total E' k e w') as [Hu [Hf' [b Hb]]];
        destruct (initialize_user_usage E' k e w') as [r w3]
    end; simpl in Hb, Hu, Hf'; subst r; simpl;
    (split; [reflexivity|]); (split; [rewrite Hf'; exact Hf|]); exact Hu.
Qed.

(** [sync_woo_product_user] then [get_user_profile], when every store call
    succeeds: for an identity with a nonzero [wp_user_id] [z], reading the
    profile of [z] after the sync returns a row that carries every column
    the sync wrote ([apply_user_update] with the synced data leaves it
    unchanged), so its [wp_user_id], [email], purchases and [last_login]
    are the synced ones. *)
Theorem sync_then_profile (E : env) (ud : user_data) (w : world) (z : Z) :
  supabase E = true -> faults w = [] ->
  ud_wp_user_id ud = Some z -> z <> 0 ->
  let t := opt_default "now()" (current_time (sess w)) in
  exists row,
    fst (get_user_profile E z (snd (sync_woo_product_user E ud w))) = Ok (Some row) /\
    apply_user_update (supabase_data ud t) row = row /\
    u_wp_user_id row = Some z /\ u_email row = ud_email ud /\
    u_purchased_products row = ud_purchased_products ud /\ u_last_login row = t.
Proof.
  intros Hs Hf Hz Hnz t.
  destruct (sync_run E ud w Hs Hf) as [_ [Hf1 Hu]]. fold t in Hu.
  assert (Hflt : lookup_filter ud = ByWpUserId z).
  { unfold lookup_filter. rewrite Hz. simpl. apply Z.eqb_neq in Hnz. rewrite Hnz. reflexivity. }
  rewrite Hflt in Hu.
  assert (Hread : forall r rs,
            filter (matches (ByWpUserId z)) (wp_users (snd (sync_woo_product_user E ud w))) = r :: rs ->
            fst (get_user_profile E z (snd (sync_woo_product_user E ud w))) = Ok (Some r)).
  { intros r rs Hr. unfold get_user_profile, try_except, try_only, bind, ret, select_users, store_call.
    rewrite Hs; cbn -[Nat.eqb filter]. rewrite Hf1; cbn -[Nat.eqb filter]. rewrite Hr. reflexivity. }
  assert (Hkeep : forall r, matches (ByWpUserId z) (apply_user_update (supabase_data ud t) r) = true).
  { intros r. rewrite <- Hflt. apply lookup_filter_keeps_key. }
  destruct (filter (matches (ByWpUserId z)) (wp_users w)) as [|r0 rs] eqn:Hr0.
  - exists (with_created_at (supabase_data ud t) t).
    split.
    + apply (Hread _ []). rewrite Hu, filter_app, Hr0. simpl.
      rewrite Hz. simpl. rewrite Z.eqb_refl. reflexivity.
    + simpl. rewrite Hz. repeat split; reflexivity.
  - exists (apply_user_update (supabase_data ud t) r0).
    split.
    + apply (Hread _ (map (apply_user_update (supabase_data ud t)) rs)).
      rewrite Hu, filter_map_update_users by exact Hkeep. rewrite Hr0. reflexivity.
    + simpl. rewrite Hz. repeat split; reflexivity.
Qed.

Lemma sync_then_profile_witness :
  exists row,
    fst (get_user_profile (sample_env []) 5
           (snd (sync_woo_product_user (sample_env []) wp_user_five (empty_world []))))
    = Ok (Some row) /\ u_email row = "ann@example.com".
Proof.
  destruct (sync_then_profile (sample_env []) wp_user_five (empty_world []) 5
              eq_refl eq_refl eq_refl ltac:(discriminate)) as [row [H1 [_ [_ [H4 _]]]]].
  exists row. split; [exact H1 | exact H4].
Defined.

(** ** Orders summary lemmas *)

Lemma string_compare_le_trans (a b c : string) :
  String.compare a b <> Gt -> String.compare b c <> Gt -> String.compare a c <> Gt.
Proof.
  revert b c; induction a as [|x a IH]; intros b c Hab Hbc.
  - destruct c; simpl; discriminate.
  - destruct b as [|y b]; [simpl in Hab; congruence|].
    destruct c as [|z c]; [simpl in Hbc; congruence|].
    simpl in *. unfold Ascii.compare in *.
    destruct (N.compare_spec (N_of_ascii x) (N_of_ascii y)) as [Exy|Lxy|Gxy];
    destruct (N.compare_spec (N_of_ascii y) (N_of_ascii z)) as [Eyz|Lyz|Gyz];
    destruct (N.compare_spec (N_of_ascii x) (N_of_ascii z)) as [Exz|Lxz|Gxz];
    simpl in *; try congruence; try lia.
    apply (IH b c); assumption.
Qed.

Lemma newer_first_trans (a b c : wc_order_row) :
  newer_first a b -> newer_first b c -> newer_first a c.
Proof.
  unfold newer_first, String.leb.
  destruct (String.compare (date_str b) (date_str a)) eqn:H1; try discriminate; intros _;
  destruct (String.compare (date_str c) (date_str b)) eqn:H2; try discriminate; intros _;
  destruct (String.compare (date_str c) (date_str a)) eqn:H3; try reflexivity;
  exfalso; apply (string_compare_le_trans (date_str c) (date_str b) (date_str a)); congruence.
Qed.

Lemma newer_first_of_ltb (x y : wc_order_row) :
  String.ltb (date_str y) (date_str x) = true -> newer_first x y.
Proof.
  unfold newer_first, String.ltb, String.leb.
  destruct (String.compare (date_str y) (date_str x)); congruence.
Qed.

Lemma newer_first_of_not_ltb (x y : wc_order_row) :
  String.ltb (date_str y) (date_str x) = false -> newer_first y x.
Proof.
  unfold newer_first, String.ltb, String.leb.
  rewrite (String.compare_antisym (date_str x) (date_str y)).
  destruct (String.compare (date_str y) (date_str x)); simpl; congruence.
Qed.

Lemma insert_desc_ok (x : wc_order_row) (l : list wc_order_row) :
  wo_date_created x <> None ->
  Forall (fun o => wo_date_created o <> None) l ->
  StronglySorted newer_first l ->
  exists l', insert_desc x l = Some l' /\ Permutation l' (x :: l) /\
             StronglySorted newer_first l'.
Proof.
  intros Hx. destruct (wo_date_created x) as [dx|] eqn:Ex; [clear Hx|congruence].
  induction l as [|y l IH]; intros Hl Hs.
  - exists [x]. split; [reflexivity|]. split; [reflexivity|]. repeat constructor.
  - inversion Hl as [|? ? Hy Hl']; subst. inversion Hs as [|? ? Hs' Hall]; subst.
    rewrite Forall_forall in Hall.
    destruct (wo_date_created y) as [dy|] eqn:Ey; [clear Hy|congruence].
    cbn [insert_desc]. unfold key_lt, date_key. rewrite Ey, Ex.
    assert (Hlt' : String.ltb (date_str y) (date_str x) = String.ltb dy dx)
      by (unfold date_str; rewrite Ey, Ex; reflexivity).
    destruct (String.ltb dy dx) eqn:Hlt.
    + exists (x :: y :: l). split; [reflexivity|]. split; [reflexivity|].
      assert (Hxy : newer_first x y) by (apply newer_first_of_ltb; exact Hlt').
      constructor; [constructor; [exact Hs'|apply Forall_forall; exact Hall]|].
      constructor; [exact Hxy|]. apply Forall_forall. intros c Hc.
      apply (newer_first_trans x y c); [exact Hxy | apply Hall; exact Hc].
    + destruct (IH Hl' Hs') as [l'' [Hi [Hp Hss]]]. rewrite Hi.
      exists (y :: l''). split; [reflexivity|]. split.
      * transitivity (y :: x :: l); [constructor; exact Hp | apply perm_swap].
      * constructor; [exact Hss|]. apply Forall_forall. intros c Hc.
        apply (Permutation_in _ Hp) in Hc. destruct Hc as [<-|Hc].
        -- apply newer_first_of_not_ltb; exact Hlt'.
        -- apply Hall; exact Hc.
Qed.

Lemma sorted_desc_fold_none (l : list wc_order_row) :
  fold_left (fun acc x => match acc with Some l => insert_desc x l | None => None end) l None
  = None.
Proof. induction l as [|x l IH]; simpl; [reflexivity | exact IH]. Qed.

Lemma sorted_desc_ok (orders : list wc_order_row) :
  Forall (fun o => wo_date_created o <> None) orders ->
  exists r, sorted_desc orders = Some r /\ Permutation r orders /\ StronglySorted newer_first r.
Proof.
  unfold sorted_desc.
  assert (H : forall acc, StronglySorted newer_first acc ->
            Forall (fun o => wo_date_created o <> None) acc ->
            Forall (fun o => wo_date_created o <> None) orders ->
            exists r, fold_left (fun acc x => match acc with Some l => insert_desc x l | None => None end)
                        orders (Some acc) = Some r /\
                      Permutation r (orders ++ acc) /\ StronglySorted newer_first r).
  { induction orders as [|x l IH]; intros acc Hacc Hd Ho; simpl.
    - exists acc. split; [reflexivity|]. split; [reflexivity | exact Hacc].
    - inversion Ho as [|? ? Hx Hl]; subst.
      destruct (insert_desc_ok x acc Hx Hd Hacc) as [a' [Hi [Hp Hs]]]. rewrite Hi.
      assert (Hd' : Forall (fun o => wo_date_created o <> None) a').
      { apply Forall_forall. intros c Hc. apply (Permutation_in _ Hp) in Hc.
        destruct Hc as [<-|Hc]; [exact Hx | rewrite Forall_forall in Hd; apply Hd; exact Hc]. }
      destruct (IH a' Hs Hd' Hl) as [r [Hr [Hpr Hsr]]].
      exists r. split; [exact Hr|]. split; [|exact Hsr].
      eapply perm_trans; [exact Hpr|].
      eapply perm_trans; [apply Permutation_app_head, Hp|].
      apply Permutation_sym, Permutation_middle. }
  intros Ho. destruct (H [] (SSorted_nil _) (Forall_nil _) Ho) as [r [Hr [Hp Hs]]].
  rewrite app_nil_r in Hp. exists r. split; [exact Hr|]. split; assumption.
Qed.

Lemma insert_desc_nonempty (x : wc_order_row) (l l' : list wc_order_row) :
  insert_desc x l = Some l' -> l' <> [].
Proof.
  destruct l as [|y l]; cbn [insert_desc]; [intros H; inversion H; discriminate|].
  destruct (key_lt (date_key y) (date_key x)) as [[|]|]; intros H; try discriminate.
  - inversion H; discriminate.
  - destruct (insert_desc x l); simpl in H; inversion H; discriminate.
Qed.

Lemma insert_desc_null (x : wc_order_row) (l : list wc_order_row) :
  wo_date_created x = None -> l <> [] -> insert_desc x l = None.
Proof.
  intros Hx Hl. destruct l as [|y l]; [contradiction|]. cbn [insert_desc].
  unfold key_lt, date_key. rewrite Hx. destruct (wo_date_created y); reflexivity.
Qed.

Lemma sorted_desc_null_rest (l acc : list wc_order_row) :
  acc <> [] -> (exists o, In o l /\ wo_date_created o = None) ->
  fold_left (fun acc x => match acc with Some l => insert_desc x l | None => None end)
    l (Some acc) = None.
Proof.
  revert acc. induction l as [|x l IH]; intros acc Hacc [o [Ho Hn]]; [destruct Ho|].
  simpl. destruct Ho as [->|Ho].
  - rewrite (insert_desc_null o acc Hn Hacc). apply sorted_desc_fold_none.
  - destruct (insert_desc x acc) as [a'|] eqn:Hi; [|apply sorted_desc_fold_none].
    apply IH; [exact (insert_desc_nonempty x acc a' Hi) | exists o; split; assumption].
Qed.

Lemma sorted_desc_null (orders : list wc_order_row) :
  (2 <= length orders)%nat -> (exists o, In o orders /\ wo_date_created o = None) ->
  sorted_desc orders = None.
Proof.
  intros Hlen [o [Ho Hn]].
  destruct orders as [|o1 [|o2 rest]]; simpl in Hlen; [lia | lia|].
  unfold sorted_desc. cbn [fold_left insert_desc].
  destruct Ho as [->|[->|Ho]].
  - unfold key_lt, date_key. rewrite Hn. apply sorted_desc_fold_none.
  - unfold key_lt, date_key. rewrite Hn.
    destruct (wo_date_created o1); apply sorted_desc_fold_none.
  - destruct (key_lt (date_key o1) (date_key o2)) as [[|]|]; cbn [option_map];
      [| |apply sorted_desc_fold_none];
      (apply sorted_desc_null_rest; [discriminate | exists o; split; assumption]).
Qed.

Lemma sum_order_totals_fold_none (l : list wc_order_row) :
  fold_left (fun acc o => match acc, wo_total o with
                          | Some s, Some t => Some (s + t)%Q
                          | _, _ => None
                          end) l None = None.
Proof. induction l as [|x l IH]; simpl; [reflexivity | exact IH]. Qed.

Lemma sum_order_totals_ok (orders : list wc_order_row) :
  Forall (fun o => wo_total o <> None) orders -> exists q, sum_order_totals orders = Some q.
Proof.
  unfold sum_order_totals. generalize 0%Q.
  induction orders as [|x l IH]; intros a Ho; simpl; [eexists; reflexivity|].
  inversion Ho as [|? ? Hx Hl]; subst.
  destruct (wo_total x) as [t|]; [apply IH; exact Hl | congruence].
Qed.

Lemma sum_order_totals_null (orders : list wc_order_row) :
  (exists o, In o orders /\ wo_total o = None) -> sum_order_totals orders = None.
Proof.
  unfold sum_order_totals. generalize (Some 0%Q).
  induction orders as [|x l IH]; intros a [o [Ho Hn]]; [destruct Ho|].
  simpl. destruct Ho as [->|Ho].
  - rewrite Hn. destruct a; apply sum_order_totals_fold_none.
  - apply IH. exists o; split; assumption.
Qed.

Lemma strongly_sorted_app (l1 l2 : list wc_order_row) :
  StronglySorted newer_first (l1 ++ l2) ->
  StronglySorted newer_first l1 /\
  (forall a b, In a l1 -> In b l2 -> newer_first a b).
Proof.
  induction l1 as [|x l1 IH]; simpl; intros H.
  - split; [constructor | intros a b []].
  - inversion H as [|x' l' Hs Hall]; subst. destruct (IH Hs) as [H1 H2].
    rewrite Forall_forall in Hall. split.
    + constructor; [exact H1|]. apply Forall_forall. intros y Hy. apply Hall, in_or_app; left; exact Hy.
    + intros a b [<-|Ha] Hb; [apply Hall, in_or_app; right; exact Hb | apply H2; assumption].
Qed.

(** [get_user_orders_summary], when the store is available and the
    [wc_orders] select returns a non-empty list of rows.  If no row has a
    null [total] or [date_created]: the summary counts all the rows, at
    most that many are completed, and [recent_orders] holds [min 5 n] of
    them, newest first (by [date_created] compared as strings), none older
    than a row left out.  If a row has a null [total], or there are two
    rows or more and one has a null [date_created], the summing or the sort
    raises [TypeError] and the result is [None]. *)
Theorem orders_summary_recent (E : env) (wc_orders : Z -> Exc (list wc_order_row)) (z : Z)
    (orders : list wc_order_row) :
  supabase E = true -> wc_orders z = Ok orders -> orders <> [] ->
  (Forall (fun o => wo_total o <> None /\ wo_date_created o <> None) orders ->
   exists s,
    get_user_orders_summary E wc_orders z = Some s /\
    total_orders s = length orders /\
    (completed_orders s <= total_orders s)%nat /\
    length (recent_orders s) = Nat.min 5 (length orders) /\
    Sorted newer_first (recent_orders s) /\
    exists older, Permutation (recent_orders s ++ older) orders /\
      (forall a b, In a (recent_orders s) -> In b older -> newer_first a b)) /\
  ((exists o, In o orders /\ wo_total o = None) \/
   ((2 <= length orders)%nat /\ exists o, In o orders /\ wo_date_created o = None) ->
   get_user_orders_summary E wc_orders z = None).
Proof.
  intros Hs Ho Hne. unfold get_user_orders_summary. rewrite Hs, Ho. simpl negb. cbv iota.
  destruct orders as [|o os]; [congruence|]. split.
  - intros Hok.
    destruct (sum_order_totals_ok (o :: os)) as [q Hq];
      [eapply Forall_impl; [|exact Hok]; intros c [Hc _]; exact Hc|].
    destruct (sorted_desc_ok (o :: os)) as [r [Hr [Hperm Hss]]];
      [eapply Forall_impl; [|exact Hok]; intros c [_ Hc]; exact Hc|].
    rewrite Hq, Hr.
    eexists. split; [reflexivity|]. cbn [total_orders completed_orders recent_orders].
    rewrite <- (firstn_skipn 5 r) in Hss.
    destruct (strongly_sorted_app _ _ Hss) as [Hfirst Hnewer].
    split; [reflexivity|]. split; [apply (filter_length_le is_completed (o :: os))|]. split.
    + rewrite length_firstn, (Permutation_length Hperm). reflexivity.
    + split; [apply StronglySorted_Sorted; exact Hfirst|].
      exists (skipn 5 r). split; [|exact Hnewer].
      rewrite firstn_skipn. exact Hperm.
  - intros [Ht|[Hlen Hd]].
    + rewrite (sum_order_totals_null _ Ht). reflexivity.
    + rewrite (sorted_desc_null _ Hlen Hd). destruct (sum_order_totals (o :: os)); reflexivity.
Qed.

Lemma orders_summary_recent_witness :
  (exists s,
     get_user_orders_summary (sample_env []) (fun _ => Ok sample_wc_orders) 5 = Some s /\
     Sorted newer_first (recent_orders s)) /\
  get_user_orders_summary (sample_env []) (fun _ => Ok sample_wc_orders_null_date) 5 = None.
Proof.
  split.
  - destruct (proj1 (orders_summary_recent (sample_env []) (fun _ => Ok sample_wc_orders) 5
                       sample_wc_orders eq_refl eq_refl ltac:(discriminate))
                    ltac:(repeat constructor; discriminate))
      as [s [H1 [_ [_ [_ [H5 _]]]]]].
    exists s. split; assumption.
  - apply (proj2 (orders_summary_recent (sample_env []) (fun _ => Ok sample_wc_orders_null_date) 5
                    sample_wc_orders_null_date eq_refl eq_refl ltac:(discriminate))).
    right. split; [simpl; lia|]. exists (mk_wc_order_row 4 (Some (12 # 1)) (Some "completed") None).
    split; [left; reflexivity | reflexivity].
Defined.

(** ** Session and sign-in properties *)

(** [logout], then [get_user_client] and [require_auth]: the user and the
    access token are cleared, so the client check is false and a guarded
    page only renders the sign-in page without running its body; the
    [wp_token] the sign-in stored stays in the session, and no table
    changes. *)
Theorem logout_clears_user_keeps_wp_token {A} (w : world) (show_auth_page : M unit) (func : M A) :
  let w' := snd (logout w) in
  fst (logout w) = Ok tt /\
  user (sess w') = None /\ access_token (sess w') = None /\
  wp_token (sess w') = wp_token (sess w) /\
  wp_users w' = wp_users w /\ api_usage w' = api_usage w /\
  fst (get_user_client w') = Ok false /\
  require_auth show_auth_page func w' = (_ <- show_auth_page ;; ret None) w'.
Proof.
  intros w'. unfold w', logout, bind, get_session, put_session. simpl.
  repeat split; reflexivity.
Qed.

Lemma login_success_run (E : env) (email password : string) (w w' : world) (u : user_data) :
  login E email password w = (Ok (Some u), w') ->
  exists w1 s, woo_product_login E email password w = (Ok (Some u), w1) /\ sess w1 = s /\
    w' = set_sess
           {| user := Some {| su_id := let o := py_or (ud_wp_user_id u) (ud_wc_customer_id u) in
                                      if truthy_id o then opt_default 0 o else py_hash E email;
                              su_email := ud_email u; su_username := ud_username u;
                              su_display_name := ud_display_name u;
                              su_purchased_products := ud_purchased_products u;
                              su_product_access := ud_product_access u |};
              access_token := Some (opt_default "woo_access" (ud_wp_token u));
              wp_token := wp_token s; current_time := current_time s |} w1.
Proof.
  unfold login, try_except, try_only, bind, get_session, put_session, ret.
  destruct (woo_product_login E email password w) as [[[u0|]|e] w1]; simpl; intros H;
    inversion H; subst. exists w1, (sess w1). split; [reflexivity | split; reflexivity].
Qed.

(** [login] on success: the session holds a user with the returned email
    and purchases and an access token (the WordPress token, or
    ["woo_access"] without one), so [get_user_client] is true and a guarded
    page runs its body; when the returned email is the one typed in, the
    session user's id is the key under which [sync_woo_product_user]
    initialised the usage record. *)
Theorem login_success_session {A} (E : env) (email password : string) (w w' : world)
    (u : user_data) (show_auth_page : M unit) (func : M A) :
  login E email password w = (Ok (Some u), w') ->
  (exists su, user (sess w') = Some su /\ su_email su = ud_email u /\
     su_purchased_products su = ud_purchased_products u /\
     (ud_email u = email -> su_id su = usage_key E u)) /\
  access_token (sess w') = Some (opt_default "woo_access" (ud_wp_token u)) /\
  fst (get_user_client w') = Ok true /\
  require_auth show_auth_page func w' = (a <- func ;; ret (Some a)) w'.
Proof.
  intros H. destruct (login_success_run E email password w w' u H) as [w1 [s [_ [_ ->]]]].
  split; [|split; [reflexivity | split; reflexivity]].
  eexists; split; [reflexivity|]. simpl. split; [reflexivity|]. split; [reflexivity|].
  intros He. unfold usage_key. rewrite He. reflexivity.
Qed.

Lemma login_success_session_witness :
  fst (get_user_client (snd (login (sample_env scenario_orders) "ann@example.com" "secret"
                                   (empty_world [])))) = Ok true.
Proof.
  assert (H : login (sample_env scenario_orders) "ann@example.com" "secret" (empty_world [])
              = (Ok (Some {| ud_wp_user_id := Some 5; ud_wc_customer_id := None;
                             ud_email := "ann@example.com"; ud_username := None;
                             ud_display_name := None; ud_wp_token := Some "tok";
                             ud_purchased_products := purchases_kept scenario_orders;
                             ud_product_access := true; ud_roles := [] |}),
                 snd (login (sample_env scenario_orders) "ann@example.com" "secret"
                            (empty_world []))))
    by (vm_compute; reflexivity).
  exact (proj1 (proj2 (proj2 (login_success_session _ _ _ _ _ _ (ret tt) (ret tt) H)))).
Defined.

Lemma woo_customer_login_some (E : env) (email password : string) (w w1 : world) (u : user_data) :
  woo_customer_login E email password w = (Ok (Some u), w1) ->
  ud_wp_user_id u = None /\ ud_wp_token u = None /\ ud_email u = email /\
  (exists cid, ud_wc_customer_id u = Some cid) /\
  ud_purchased_products u = get_user_purchased_products E email /\
  get_user_purchased_products E email <> [] /\
  ud_username u = Some (opt_default (email_local_part email) (ud_username u)).
Proof.
  unfold woo_customer_login.
  destruct (wp_config E); simpl negb; cbv iota; [|unfold ret; intros H; inversion H].
  unfold try_except, try_only, bind, lift, ret.
  destruct (get_user_purchased_products E email) as [|p ps] eqn:Hg; [intros H; inversion H|].
  destruct (send (gw_customers (gw E) email)) as [[st bd]|e]; simpl; [|intros H; inversion H].
  destruct (st =? 200); simpl.
  - destruct (json bd) as [cs|e]; simpl; [|intros H; inversion H].
    destruct cs as [|c cs]; simpl; [intros H; inversion H|].
    destruct (c_id c) as [cid|]; simpl; [|intros H; inversion H].
    match goal with
    | |- context [sync_woo_product_user E ?ud ?w2] =>
        destruct (sync_woo_product_user E ud w2) as [[[|]|e] w3]; simpl; intros H; inversion H
    end.
    subst. simpl. split; [reflexivity|]. split; [reflexivity|]. split; [reflexivity|].
    split; [eexists; reflexivity|]. split; [reflexivity|]. split; [discriminate|reflexivity].
  - intros H; inversion H.
Qed.

(** [login] when the credentials are refused ([jwt-auth] answers a status
    other than 200) and the customer lookup signs the user in: the returned
    identity has no [wp_user_id] and no WordPress token but a
    [wc_customer_id], carries the typed email and its non-empty purchase
    list, and the session's access token is ["woo_access"]. *)
Theorem login_customer_fallback (E : env) (email password : string) (w w' : world)
    (st : Z) (body : option token_data) (u : user_data) :
  wp_config E = true ->
  gw_token (gw E) email password = Response st body -> st <> 200 ->
  login E email password w = (Ok (Some u), w') ->
  ud_wp_user_id u = None /\ (exists cid, ud_wc_customer_id u = Some cid) /\
  ud_email u = email /\
  ud_purchased_products u = get_user_purchased_products E email /\
  get_user_purchased_products E email <> [] /\
  access_token (sess w') = Some "woo_access".
Proof.
  intros Hcfg Htok Hst H.
  destruct (login_success_run E email password w w' u H) as [w1 [s [Hw [_ ->]]]].
  assert (Hc : exists w2, woo_customer_login E email password w = (Ok (Some u), w2)).
  { revert Hw. unfold woo_product_login. rewrite Hcfg. simpl negb. cbv iota.
    unfold try_only, bind, lift. rewrite Htok. simpl.
    apply Z.eqb_neq in Hst. rewrite Hst.
    destruct (woo_customer_login E email password w) as [[r|e] w2]; simpl; intros Hw.
    - inversion Hw; subst; eexists; reflexivity.
    - destruct (is_request_exception e); discriminate. }
  destruct Hc as [w2 Hc].
  destruct (woo_customer_login_some E email password w w2 u Hc) as [H1 [H2 [H3 [H4 [H5 [H6 _]]]]]].
  repeat split; try assumption. simpl. rewrite H2. reflexivity.
Qed.

Lemma login_customer_fallback_witness :
  access_token (sess (snd (login (customer_env scenario_orders) "ann@example.com" "secret"
                                 (empty_world [])))) = Some "woo_access".
Proof.
  assert (H : login (customer_env scenario_orders) "ann@example.com" "secret" (empty_world [])
              = (Ok (Some {| ud_wp_user_id := None; ud_wc_customer_id := Some 7;
                             ud_email := "ann@example.com"; ud_username := Some "ann";
                             ud_display_name := Some "Ann Lee"; ud_wp_token := None;
                             ud_purchased_products := purchases_kept scenario_orders;
                             ud_product_access := true; ud_roles := [] |}),
                 snd (login (customer_env scenario_orders) "ann@example.com" "secret"
                            (empty_world []))))
    by (vm_compute; reflexivity).
  exact (proj2 (proj2 (proj2 (proj2 (proj2 (login_customer_fallback (customer_env scenario_orders)
           "ann@example.com" "secret" (empty_world []) _ 401 None _
           eq_refl eq_refl ltac:(discriminate) H)))))).
Defined.

(** [woo_product_login] when the token answer (status 200) has no [token]
    key: [wp_token_data['token']] raises [KeyError], which the
    [except RequestException] clause does not catch; [login] catches it
    and returns [None]; nothing in the world changes. *)
Theorem token_without_key (E : env) (email password : string) (w : world) (td : token_data) :
  wp_config E = true ->
  gw_token (gw E) email password = Response 200 (Some td) ->
  td_token td = None ->
  woo_product_login E email password w = (Raise KeyError, w) /\
  login E email password w = (Ok None, w).
Proof.
  intros Hcfg Htok Htd.
  assert (Hw : woo_product_login E email password w = (Raise KeyError, w)).
  { unfold woo_product_login. rewrite Hcfg. simpl negb. cbv iota.
    unfold try_only, bind, lift. rewrite Htok. simpl. rewrite Htd. reflexivity. }
  split; [exact Hw|].
  unfold login, try_except, try_only, bind. rewrite Hw. reflexivity.
Qed.

Lemma token_without_key_witness :
  login (tokenless_env scenario_orders) "ann" "secret" (empty_world []) = (Ok None, empty_world []).
Proof.
  apply (proj2 (token_without_key (tokenless_env scenario_orders) "ann" "secret" (empty_world [])
                  (mk_token_data None (Some "ann")) eq_refl eq_refl eq_refl)).
Defined.

(** [email.split('@')[0]] (the default username of the customer path):
    for a local part [l] without ['@'], the result on [l@d] is [l], and on
    a string without ['@'] it is the string itself. *)
Theorem email_local_part_split (l d : string) :
  ~ In "@"%char (list_ascii_of_string l) ->
  email_local_part (l ++ String "@" d) = l /\ email_local_part l = l.
Proof.
  induction l as [|c l IH]; intros H; simpl; [split; reflexivity|].
  simpl in H. assert (Hc : Ascii.eqb c "@"%char = false)
    by (apply Ascii.eqb_neq; intros Heq; apply H; left; exact Heq).
  rewrite Hc. destruct (IH (fun Hin => H (or_intror Hin))) as [H1 H2].
  rewrite H1, H2. split; reflexivity.
Qed.

Lemma email_local_part_split_witness :
  email_local_part "ann@example.com" = "ann".
Proof.
  apply (proj1 (email_local_part_split "ann" "example.com" ltac:(simpl; intuition discriminate))).
Defined.





(** [woo_customer_login] with an empty purchase list, and [login] when the
    credentials are refused and the customer has no purchase: both return
    [None] before any store call, leaving the world (tables and session)
    as it was. *)
Theorem customer_login_denied_without_purchases (E : env) (email password : string) (w : world)
    (st : Z) (body : option token_data) :
  wp_config E = true ->
  get_user_purchased_products E email = [] ->
  woo_customer_login E email password w = (Ok None, w) /\
  (gw_token (gw E) email password = Response st body -> st <> 200 ->
   login E email password w = (Ok None, w)).
Proof.
  intros Hcfg Hg.
  assert (Hc : woo_customer_login E email password w = (Ok None, w)).
  { unfold woo_customer_login. rewrite Hcfg. simpl negb. cbv iota.
    unfold try_except, try_only, ret. rewrite Hg. reflexivity. }
  split; [exact Hc|]. intros Htok Hst.
  unfold login, try_except, try_only, bind, ret.
  unfold woo_product_login. rewrite Hcfg. simpl negb. cbv iota.
  unfold try_only, bind, lift. rewrite Htok. simpl.
  apply Z.eqb_neq in Hst. rewrite Hst. rewrite Hc. reflexivity.
Qed.

Lemma customer_login_denied_without_purchases_witness :
  login (customer_env []) "ann@example.com" "secret" (empty_world []) = (Ok None, empty_world []).
Proof.
  apply (proj2 (customer_login_denied_without_purchases (customer_env []) "ann@example.com" "secret"
                  (empty_world []) 401 None eq_refl eq_refl) eq_refl).
  discriminate.
Defined.

(** ** Ledger frame lemmas *)

Lemma frame_bind {A B} (k : Z) (m : M A) (f : A -> M B) :
  frames_other_keys k m -> (forall a, frames_other_keys k (f a)) -> frames_other_keys k (bind m f).
Proof.
  intros Hm Hf w j Hj. unfold bind.
  pose proof (Hm w j Hj) as H; revert H.
  destruct (m w) as [[a|e] w']; simpl; intros H; [rewrite (Hf a w' j Hj)|]; exact H.
Qed.

Lemma frame_try_only {A} (k : Z) (p : exn -> bool) (m : M A) (h : exn -> M A) :
  frames_other_keys k m -> (forall e, frames_other_keys k (h e)) ->
  frames_other_keys k (try_only p m h).
Proof.
  intros Hm Hh w j Hj. unfold try_only.
  pose proof (Hm w j Hj) as H; revert H.
  destruct (m w) as [[a|e] w']; simpl; intros H; [exact H|].
  destruct (p e); [rewrite (Hh e w' j Hj)|]; exact H.
Qed.

Lemma frame_ret {A} (k : Z) (a : A) : frames_other_keys k (ret a).
Proof. intros w j _; reflexivity. Qed.

Lemma frame_current_time (k : Z) : frames_other_keys k get_current_time.
Proof. intros w j _; reflexivity. Qed.

Lemma frame_store_call {A} (k : Z) (f : world -> A * world) :
  (forall w, api_usage (snd (f w)) = api_usage w) -> frames_other_keys k (store_call f).
Proof.
  intros Hf w j _. unfold store_call.
  destruct (existsb (Nat.eqb (ops w)) (faults w)); [reflexivity|].
  pose proof (Hf (set_ops (S (ops w)) w)) as H.
  destruct (f (set_ops (S (ops w)) w)) as [a w2]; simpl in *. rewrite H; reflexivity.
Qed.

Lemma frame_insert_usage (k : Z) (r : usage_row) :
  a_wp_user_id r = k -> frames_other_keys k (insert_usage r).
Proof.
  intros Hr w j Hj. unfold insert_usage, store_call.
  destruct (existsb (Nat.eqb (ops w)) (faults w)); [reflexivity|]. simpl.
  rewrite filter_app. simpl. rewrite Hr.
  apply Z.eqb_neq in Hj. rewrite Z.eqb_sym, Hj. apply app_nil_r.
Qed.

Lemma frame_update_usage (k : Z) (f : usage_row -> usage_row) :
  (forall x, a_wp_user_id (f x) = a_wp_user_id x) -> frames_other_keys k (update_usage k f).
Proof.
  intros Hf w j Hj. unfold update_usage, store_call.
  destruct (existsb (Nat.eqb (ops w)) (faults w)); [reflexivity|]. simpl.
  rewrite filter_map_same_key by exact Hf.
  rewrite <- map_id. apply map_ext_in. intros x Hx. apply filter_In in Hx as [_ Hx].
  apply Z.eqb_eq in Hx. subst j.
  destruct (a_wp_user_id x =? k) eqn:Hk; [|reflexivity].
  apply Z.eqb_eq in Hk. congruence.
Qed.

Lemma frame_initialize (E : env) (k : Z) (email : string) :
  frames_other_keys k (initialize_user_usage E k email).
Proof.
  unfold initialize_user_usage. destruct (supabase E); simpl; [|apply frame_ret].
  apply frame_try_only; [|intros; apply frame_ret].
  apply frame_bind; [apply frame_store_call; reflexivity|]. intros [|r rs]; [|apply frame_ret].
  apply frame_bind; [apply frame_current_time|]. intros t.
  apply frame_bind; [apply frame_insert_usage; reflexivity | intros; apply frame_ret].
Qed.

Lemma frame_get_user_usage (E : env) (k : Z) (email : string) :
  frames_other_keys k (get_user_usage E k email).
Proof.
  unfold get_user_usage. destruct (supabase E); simpl; [|apply frame_ret].
  apply frame_try_only; [|intros; apply frame_ret].
  apply frame_bind; [apply frame_store_call; reflexivity|].
  intros [|r rs]; [|apply frame_ret].
  apply frame_bind; [apply frame_initialize | intros; apply frame_ret].
Qed.

(** [initialize_user_usage], [get_user_usage], [increment_usage] and
    [check_usage_limit] on key [k], and [sync_woo_product_user] on its
    usage key, never add, change or remove an [api_usage] row of another
    key, whatever store calls fail. *)
Theorem ledger_leaves_other_keys (E : env) (k : Z) (email : string) (limit : Z) :
  frames_other_keys k (initialize_user_usage E k email) /\
  frames_other_keys k (get_user_usage E k email) /\
  frames_other_keys k (increment_usage E k email) /\
  frames_other_keys k (check_usage_limit E k email limit) /\
  (forall ud, frames_other_keys (usage_key E ud) (sync_woo_product_user E ud)).
Proof.
  split; [apply frame_initialize|]. split; [apply frame_get_user_usage|]. split; [|split].
  - unfold increment_usage. destruct (supabase E); simpl; [|apply frame_ret].
    apply frame_try_only; [|intros; apply frame_ret].
    apply frame_bind; [apply frame_get_user_usage|]. intros current.
    apply frame_bind; [apply frame_current_time|]. intros t.
    apply frame_bind; [apply frame_update_usage; reflexivity | intros; apply frame_ret].
  - unfold check_usage_limit. apply frame_bind; [apply frame_get_user_usage | intros; apply frame_ret].
  - intros ud. unfold sync_woo_product_user. destruct (supabase E); simpl; [|apply frame_ret].
    apply frame_try_only; [|intros; apply frame_ret].
    apply frame_bind; [apply frame_current_time|]. intros t.
    apply frame_bind; [apply frame_store_call; reflexivity|]. intros existing.
    apply frame_bind.
    + destruct existing.
      * apply frame_bind; [apply frame_current_time | intros; apply frame_store_call; reflexivity].
      * apply frame_store_call; reflexivity.
    + intros _. apply frame_bind; [apply frame_initialize | intros; apply frame_ret].
Qed.

(** [sync_woo_product_user] never adds, changes or removes a [wp_users] row
    that its lookup filter does not select, whatever store calls fail. *)
Theorem sync_leaves_unselected_rows (E : env) (ud : user_data) (w : world) :
  filter (fun r => negb (matches (lookup_filter ud) r)) (wp_users (snd (sync_woo_product_user E ud w)))
  = filter (fun r => negb (matches (lookup_filter ud) r)) (wp_users w).
Proof.
  unfold sync_woo_product_user. destruct (supabase E); simpl negb; cbv iota; [|reflexivity].
  unfold try_except, try_only, bind, get_current_time, select_users, insert_users,
    update_users, store_call, ret.
  cbn -[Nat.eqb filter initialize_user_usage matches].
  destruct (existsb (Nat.eqb (ops w)) (faults w)); cbn -[Nat.eqb filter initialize_user_usage matches];
    [reflexivity|].
  destruct (filter (matches (lookup_filter ud)) (wp_users w));
    cbn -[Nat.eqb filter initialize_user_usage matches];
    (destruct (existsb (Nat.eqb (S (ops w))) (faults w));
     cbn -[Nat.eqb filter initialize_user_usage matches]; [reflexivity|]);
    match goal with
    | |- context [initialize_user_usage ?E' ?k ?e ?w'] =>
        destruct (initialize_total E' k e w') as [Hu [_ [b Hb]]];
        destruct (initialize_user_usage E' k e w') as [r w3]
    end; simpl in Hb, Hu; subst r; simpl; rewrite Hu; simpl.
  - rewrite filter_app.
    set (t := opt_default "now()" (current_time (sess w))).
    pose proof (lookup_filter_keeps_key ud t (with_created_at (supabase_data ud t) t)) as Hk.
    change (apply_user_update (supabase_data ud t) (with_created_at (supabase_data ud t) t))
      with (with_created_at (supabase_data ud t) t) in Hk.
    simpl filter at 2. rewrite Hk. apply app_nil_r.
  - clear Hu. induction (wp_users w) as [|x xs IH]; [reflexivity|]. simpl.
    destruct (matches (lookup_filter ud) x) eqn:Hm; simpl.
    + rewrite lookup_filter_keeps_key. simpl. exact IH.
    + rewrite Hm. simpl. f_equal. exact IH.
Qed.

Lemma ledger_leaves_other_keys_witness :
  filter (fun x => a_wp_user_id x =? 6)
    (api_usage (snd (increment_usage (sample_env []) 5 "ann@example.com"
                       (mk_world [] [mk_usage_row 6 "bo@example.com" 3 None None] empty_session 0 []))))
  = [mk_usage_row 6 "bo@example.com" 3 None None].
Proof.
  apply (proj1 (proj2 (proj2 (ledger_leaves_other_keys (sample_env []) 5 "ann@example.com" 30)))
           (mk_world [] [mk_usage_row 6 "bo@example.com" 3 None None] empty_session 0 []) 6).
  discriminate.
Defined.
